(** * Ganttifier: the validating converter from Gantt data to Mermaid syntax

    A shallow embedding of [src/utils/ganttConverter.ts] (with the types of
    [src/types]) and the properties of its validator and emitter.

    Modelling conventions.
    - A JavaScript string is a Rocq [string]; the character of code [n]
      stands for the UTF-16 code unit [n], so the model covers the strings
      over the code units 0..255.
    - A JavaScript [number] that is used as a duration value is an integer
      [Z]; it is rendered in decimal, as JavaScript renders integers of
      magnitude below 10^21.
    - An optional field [f?: T] is an [option T]; a JavaScript truthiness
      test on it is written out ([truthyOpt], [falsy]).
    - [null] passed for the whole schedule is [None]. *)

From stdpp Require Import base gmap sets list strings pretty.
From Stdlib Require Import ZArith String Ascii Bool Lia.

#[local] Set Warnings "-clear-no-such-hyp,-register-all".

Open Scope string_scope.

(* String concatenation unfolds on a constructor, as list concatenation does. *)
#[local] Arguments append !s1 s2 : simpl nomatch.

(** ** JavaScript strings *)

(** The double quote character, as a one-character string. *)
Definition dq : string := String (ascii_of_nat 34) EmptyString.

(** The line feed, as a one-character string. *)
Definition nl : string := String (ascii_of_nat 10) EmptyString.

(** [!s] on a string: only the empty string is falsy. *)
Definition falsy (s : string) : bool :=
  match s with
  | EmptyString => true
  | String _ _ => false
  end.

(** [!o] on an optional string: [undefined] and the empty string are falsy. *)
Definition falsyOpt (o : option string) : bool :=
  match o with
  | None => true
  | Some s => falsy s
  end.

Definition truthyOpt (o : option string) : bool := negb (falsyOpt o).

(** WhiteSpace and LineTerminator code units below 256: TAB, LF, VT, FF, CR,
    SP and NBSP. These are what [String.prototype.trim] strips. *)
Definition isWhiteSpace (c : ascii) : bool :=
  let n := nat_of_ascii c in
  Nat.eqb n 9 || Nat.eqb n 10 || Nat.eqb n 11 || Nat.eqb n 12
  || Nat.eqb n 13 || Nat.eqb n 32 || Nat.eqb n 160.

Fixpoint trimStart (s : string) : string :=
  match s with
  | EmptyString => EmptyString
  | String c s' => if isWhiteSpace c then trimStart s' else s
  end.

Fixpoint trimEnd (s : string) : string :=
  match s with
  | EmptyString => EmptyString
  | String c s' =>
      match trimEnd s' with
      | EmptyString => if isWhiteSpace c then EmptyString else String c EmptyString
      | r => String c r
      end
  end.

(** [s.trim()] *)
Definition trim (s : string) : string := trimEnd (trimStart s).

(** Every character of the string is white space. *)
Fixpoint whitespaceOnly (s : string) : bool :=
  match s with
  | EmptyString => true
  | String c s' => isWhiteSpace c && whitespaceOnly s'
  end.

(** [!s || s.trim() === EMPTY], with EMPTY the empty string literal: the test
    the validator applies to required strings. *)
Definition blank (s : string) : bool :=
  falsy s || String.eqb (trim s) EmptyString.

(** [parts.join(sep)] *)
Fixpoint join (sep : string) (parts : list string) : string :=
  match parts with
  | [] => EmptyString
  | [x] => x
  | x :: rest => x ++ sep ++ join sep rest
  end.

(** [`${n}`] for an integer number. *)
Definition numberToString (n : Z) : string := pretty n.

(** ** Regular expressions

    The two patterns of the converter are anchored at both ends and use
    character classes, concatenation and repetition only. [test] decides
    whether the whole string belongs to the language of the pattern, which is
    what [RegExp.prototype.test] does for a pattern of the form [^...$]. *)

Inductive regex : Type :=
| Never : regex
| Eps : regex
| Class (p : ascii -> bool) : regex
| Cat (r1 r2 : regex) : regex
| Alt (r1 r2 : regex) : regex
| Star (r : regex) : regex.

Fixpoint nullable (r : regex) : bool :=
  match r with
  | Never => false
  | Eps => true
  | Class _ => false
  | Cat r1 r2 => nullable r1 && nullable r2
  | Alt r1 r2 => nullable r1 || nullable r2
  | Star _ => true
  end.

Fixpoint deriv (c : ascii) (r : regex) : regex :=
  match r with
  | Never => Never
  | Eps => Never
  | Class p => if p c then Eps else Never
  | Cat r1 r2 =>
      if nullable r1 then Alt (Cat (deriv c r1) r2) (deriv c r2)
      else Cat (deriv c r1) r2
  | Alt r1 r2 => Alt (deriv c r1) (deriv c r2)
  | Star r1 => Cat (deriv c r1) (Star r1)
  end.

Fixpoint test (r : regex) (s : string) : bool :=
  match s with
  | EmptyString => nullable r
  | String c s' => test (deriv c r) s'
  end.

(** [r+] *)
Definition Plus (r : regex) : regex := Cat r (Star r).

(** [r{n}] *)
Fixpoint Times (n : nat) (r : regex) : regex :=
  match n with
  | O => Eps
  | S n' => Cat r (Times n' r)
  end.

(** [\d] *)
Definition isDigit (c : ascii) : bool :=
  let n := nat_of_ascii c in Nat.leb 48 n && Nat.leb n 57.

(** [[dwmh]] and the like: the character is one of those of [set]. *)
Fixpoint oneOf (set : string) (c : ascii) : bool :=
  match set with
  | EmptyString => false
  | String x rest => Ascii.eqb x c || oneOf rest c
  end.

(** The language of a pattern. *)
Inductive lang : regex -> string -> Prop :=
| lang_eps : lang Eps EmptyString
| lang_class p c : p c = true -> lang (Class p) (String c EmptyString)
| lang_cat r1 r2 s1 s2 : lang r1 s1 -> lang r2 s2 -> lang (Cat r1 r2) (s1 ++ s2)
| lang_alt_l r1 r2 s : lang r1 s -> lang (Alt r1 r2) s
| lang_alt_r r1 r2 s : lang r2 s -> lang (Alt r1 r2) s
| lang_star_nil r : lang (Star r) EmptyString
| lang_star_cons r s1 s2 :
    lang r s1 -> lang (Star r) s2 -> lang (Star r) (s1 ++ s2).

(** [/^\d+[dwmh]$/] *)
Definition durationRe : regex := Cat (Plus (Class isDigit)) (Class (oneOf "dwmh")).

(** [/^\d{4}-\d{2}-\d{2}$/] *)
Definition isoDateRe : regex :=
  Cat (Times 4 (Class isDigit))
    (Cat (Class (oneOf "-"))
       (Cat (Times 2 (Class isDigit))
          (Cat (Class (oneOf "-")) (Times 2 (Class isDigit))))).

(** ** The types of [src/types] *)

Inductive TaskStatus : Type := done | active | crit | milestone.

#[global] Instance TaskStatus_eq_dec : EqDecision TaskStatus.
Proof. solve_decision. Defined.

(** The string a status tag is at run time. *)
Definition statusToString (s : TaskStatus) : string :=
  match s with
  | done => "done"
  | active => "active"
  | crit => "crit"
  | milestone => "milestone"
  end.

Module Duration.
(** [unit] is declared as one of the four unit letters, but the validator
    checks it again at run time, so the model keeps it a string. *)
Record t : Type := mk { value : Z; unit : string }.
End Duration.

(** [Duration | string] *)
Inductive DurationOrString : Type :=
| DObject (d : Duration.t)
| DString (s : string).

Module GanttTask.
Record t : Type := mk {
  id : string;
  name : string;
  start : string;
  duration : DurationOrString;
  status : option (list TaskStatus);
  after : option string
}.
End GanttTask.

Module GanttSection.
Record t : Type := mk {
  name : string;
  tasks : list GanttTask.t
}.
End GanttSection.

Module GanttConfig.
Record t : Type := mk {
  title : option string;
  dateFormat : option string;
  excludes : option (list string);
  excludeDates : option (list string);
  enableClick : option bool;
  displayMode : option string;
  axisFormat : option string;
  tickInterval : option string
}.
End GanttConfig.

Module GanttData.
Record t : Type := mk {
  config : option GanttConfig.t;
  sections : list GanttSection.t
}.
End GanttData.

Module ConversionResult.
Record t : Type := mk {
  success : bool;
  syntax : option string;
  error : option string
}.
End ConversionResult.

(** ** Emitter *)

(** [formatDuration]: [`${duration.value}${duration.unit}`] *)
Definition formatDuration (duration : Duration.t) : string :=
  numberToString (Duration.value duration) ++ Duration.unit duration.

(** [isDurationString] *)
Definition isDurationString (value : string) : bool := test durationRe value.

(** [formatTaskStatus] *)
Definition formatTaskStatus (status : option (list TaskStatus)) : string :=
  match status with
  | None => EmptyString
  | Some [] => EmptyString
  | Some l => join ", " (map statusToString l)
  end.

(** [lines.push(x)] *)
Definition push (lines : list string) (x : string) : list string :=
  (lines ++ [x])%list.

(** [convertTask]. [parts] is built by successive [push]es; the two string
    branches of the duration push the same value, as in the source. *)
Definition convertTask (task : GanttTask.t) : string :=
  let parts := [] in
  let parts := push parts (GanttTask.name task) in
  let statusStr := formatTaskStatus (GanttTask.status task) in
  let parts := if falsy statusStr then parts else push parts statusStr in
  let parts := push parts (GanttTask.id task) in
  let parts :=
    if truthyOpt (GanttTask.after task)
    then push parts ("after " ++ default EmptyString (GanttTask.after task))
    else push parts (GanttTask.start task) in
  let parts :=
    match GanttTask.duration task with
    | DObject d => push parts (formatDuration d)
    | DString s => if isDurationString s then push parts s else push parts s
    end in
  "    " ++ join " : " parts.

(** [convertSection] *)
Definition convertSection (section : GanttSection.t) : list string :=
  let lines := [] in
  let lines := push lines ("    section " ++ GanttSection.name section) in
  fold_left (fun lines task => push lines (convertTask task))
    (GanttSection.tasks section) lines.

(** One [if (config.field) lines.push(...)] step of [convertConfig]. *)
Definition pushIfSet (keyword : string) (field : option string)
    (lines : list string) : list string :=
  if truthyOpt field
  then push lines ("    " ++ keyword ++ " " ++ default EmptyString field)
  else lines.

(** [convertConfig] *)
Definition convertConfig (config : GanttConfig.t) : list string :=
  let lines := [] in
  let lines := pushIfSet "title" (GanttConfig.title config) lines in
  let lines := pushIfSet "dateFormat" (GanttConfig.dateFormat config) lines in
  let lines := pushIfSet "axisFormat" (GanttConfig.axisFormat config) lines in
  let lines := pushIfSet "tickInterval" (GanttConfig.tickInterval config) lines in
  match GanttConfig.excludes config with
  | Some (x :: xs) => push lines ("    excludes " ++ join ", " (x :: xs))
  | _ => lines
  end.

(** ** Validator *)

Definition quoted (s : string) : string := dq ++ s ++ dq.

Definition msgMissingId (sectionName : string) : string :=
  "Task in section " ++ quoted sectionName ++ " is missing an ID".

Definition msgMissingName (id sectionName : string) : string :=
  "Task " ++ quoted id ++ " in section " ++ quoted sectionName
  ++ " is missing a name".

Definition msgMissingStart (id sectionName : string) : string :=
  "Task " ++ quoted id ++ " in section " ++ quoted sectionName
  ++ " is missing a start date or dependency".

Definition msgMissingDuration (id sectionName : string) : string :=
  "Task " ++ quoted id ++ " in section " ++ quoted sectionName
  ++ " is missing a duration".

Definition msgDurationFormat (id dur : string) : string :=
  "Task " ++ quoted id ++ " has invalid duration format: " ++ quoted dur.

Definition msgDurationValue (id : string) (v : Z) : string :=
  "Task " ++ quoted id ++ " has invalid duration value: " ++ numberToString v.

Definition msgDurationUnit (id u : string) : string :=
  "Task " ++ quoted id ++ " has invalid duration unit: " ++ u.

Definition msgSectionName : string := "Section is missing a name".

Definition msgNoTasks (sectionName : string) : string :=
  "Section " ++ quoted sectionName ++ " has no tasks".

Definition msgDataRequired : string := "Gantt data is required".

Definition msgNoSections : string := "Gantt data must have at least one section".

Definition msgDuplicate (id : string) : string :=
  "Duplicate task ID found: " ++ quoted id.

Definition msgDependency (id a : string) : string :=
  "Task " ++ quoted id ++ " depends on non-existent task: " ++ quoted a.

(** [!task.duration]: an object is truthy, a string is falsy when empty. *)
Definition durationFalsy (d : DurationOrString) : bool :=
  match d with
  | DObject _ => false
  | DString s => falsy s
  end.

(** [task.status?.includes("milestone")], with [undefined] read as false. *)
Definition isMilestone (status : option (list TaskStatus)) : bool :=
  match status with
  | None => false
  | Some l => bool_decide (milestone ∈ l)
  end.

(** [["d", "w", "h", "m"].includes(u)] *)
Definition isUnit (u : string) : bool :=
  bool_decide (u ∈ ["d"; "w"; "h"; "m"]).

(** The checks on a structured duration. *)
Definition validateDurationObject (id : string)
    (status : option (list TaskStatus)) (d : Duration.t) : option string :=
  if (Duration.value d <? 0)%Z
     || (negb (isMilestone status) && (Duration.value d =? 0)%Z)
  then Some (msgDurationValue id (Duration.value d))
  else if negb (isUnit (Duration.unit d))
  then Some (msgDurationUnit id (Duration.unit d))
  else None.

(** [validateTask] *)
Definition validateTask (task : GanttTask.t) (sectionName : string)
    : option string :=
  let id := GanttTask.id task in
  if blank id then Some (msgMissingId sectionName)
  else if blank (GanttTask.name task) then Some (msgMissingName id sectionName)
  else if falsyOpt (GanttTask.after task) && blank (GanttTask.start task)
  then Some (msgMissingStart id sectionName)
  else if durationFalsy (GanttTask.duration task)
  then Some (msgMissingDuration id sectionName)
  else
    match GanttTask.duration task with
    | DString s =>
        if negb (isDurationString s) && negb (test isoDateRe s)
        then Some (msgDurationFormat id s)
        else None
    | DObject d => validateDurationObject id (GanttTask.status task) d
    end.

(** [if (err) return err;] on a [string | null]: the error is returned when
    it is a non-empty string, otherwise the code goes on. *)
Definition truthyError (err : option string) : bool := truthyOpt err.

(** The [for (const task of section.tasks)] loop of [validateSection]. *)
Fixpoint validateTasks (tasks : list GanttTask.t) (sectionName : string)
    : option string :=
  match tasks with
  | [] => None
  | task :: rest =>
      let taskError := validateTask task sectionName in
      if truthyError taskError then taskError
      else validateTasks rest sectionName
  end.

(** [validateSection] *)
Definition validateSection (section : GanttSection.t) : option string :=
  if blank (GanttSection.name section) then Some msgSectionName
  else if Nat.eqb (List.length (GanttSection.tasks section)) 0
  then Some (msgNoTasks (GanttSection.name section))
  else validateTasks (GanttSection.tasks section) (GanttSection.name section).

(** The result of a loop of [validateGanttData] over the set [taskIds]:
    either it returned an error message, or it ran to its end and left the
    set in the given state. *)
Inductive scan : Type :=
| Returned (message : option string)
| Continued (taskIds : gset string).

(** The inner loop of the first pass: [taskIds.has] then [taskIds.add]. *)
Fixpoint scanTaskIds (tasks : list GanttTask.t) (taskIds : gset string) : scan :=
  match tasks with
  | [] => Continued taskIds
  | task :: rest =>
      if bool_decide (GanttTask.id task ∈ taskIds)
      then Returned (Some (msgDuplicate (GanttTask.id task)))
      else scanTaskIds rest ({[GanttTask.id task]} ∪ taskIds)
  end.

(** The first pass over the sections: each section is validated, then its
    task ids are entered into [taskIds]. *)
Fixpoint scanSections (sections : list GanttSection.t) (taskIds : gset string)
    : scan :=
  match sections with
  | [] => Continued taskIds
  | section :: rest =>
      let sectionError := validateSection section in
      if truthyError sectionError then Returned sectionError
      else
        match scanTaskIds (GanttSection.tasks section) taskIds with
        | Returned e => Returned e
        | Continued taskIds' => scanSections rest taskIds'
        end
  end.

(** The second pass: every truthy [after] must be in [taskIds]. *)
Fixpoint checkTaskDependencies (tasks : list GanttTask.t)
    (taskIds : gset string) : option string :=
  match tasks with
  | [] => None
  | task :: rest =>
      let a := default EmptyString (GanttTask.after task) in
      if truthyOpt (GanttTask.after task) && negb (bool_decide (a ∈ taskIds))
      then Some (msgDependency (GanttTask.id task) a)
      else checkTaskDependencies rest taskIds
  end.

Fixpoint checkDependencies (sections : list GanttSection.t)
    (taskIds : gset string) : option string :=
  match sections with
  | [] => None
  | section :: rest =>
      match checkTaskDependencies (GanttSection.tasks section) taskIds with
      | Some e => Some e
      | None => checkDependencies rest taskIds
      end
  end.

(** [validateGanttData]; [None] for the argument is [null]. *)
Definition validateGanttData (data : option GanttData.t) : option string :=
  match data with
  | None => Some msgDataRequired
  | Some d =>
      if Nat.eqb (List.length (GanttData.sections d)) 0 then Some msgNoSections
      else
        match scanSections (GanttData.sections d) ∅ with
        | Returned e => e
        | Continued taskIds => checkDependencies (GanttData.sections d) taskIds
        end
  end.

(** What a call does: it returns a value, or throws. *)
Inductive outcome (A : Type) : Type :=
| Returns (a : A)
| Throws (what : string).
Arguments Returns {A} a.
Arguments Throws {A} what.

(** The lines after validation: the header, the directives, the sections. *)
Definition emitLines (d : GanttData.t) : list string :=
  let lines := ["gantt"] in
  let lines :=
    match GanttData.config d with
    | Some config => (lines ++ convertConfig config)%list
    | None => lines
    end in
  fold_left (fun lines section => (lines ++ convertSection section)%list)
    (GanttData.sections d) lines.

(** [convertToMermaidSyntax]. Reading [data.config] of [null] would throw a
    [TypeError]. *)
Definition convertToMermaidSyntax (data : option GanttData.t)
    : outcome ConversionResult.t :=
  let validationError := validateGanttData data in
  if truthyError validationError
  then Returns (ConversionResult.mk false None validationError)
  else
    match data with
    | None => Throws "TypeError"
    | Some d => Returns (ConversionResult.mk true (Some (join nl (emitLines d))) None)
    end.

(** ** Task helpers *)



(** [createMilestone] *)
Definition createMilestone (id name afterTaskId : string) : GanttTask.t :=
  GanttTask.mk id name EmptyString (DObject (Duration.mk 0 "d"))
    (Some [milestone]) (Some afterTaskId).

(** ** The [GanttChart] component

    What the component returns is a tree of elements; what it logs with
    [console.warn] is kept beside it. [useMemo] caches the conversion and
    does not change its value. *)

Module GanttChartProps.
(** [onTaskClick] is never called by the component, so only its presence is
    kept. *)
Record t : Type := mk {
  data : option GanttData.t;
  className : option string;
  onTaskClick : bool
}.
End GanttChartProps.

Inductive node : Type :=
| Element (tag : string) (attributes : list (string * string)) (children : list node)
| Text (text : string)
| MermaidElement (chart : option string).

(** [{value}] as a child: [undefined] renders nothing. *)
Definition textChild (value : option string) : list node :=
  match value with
  | Some s => [Text s]
  | None => []
  end.

Module Rendering.
Record t : Type := mk {
  element : node;
  warnings : list string
}.
End Rendering.

Definition onTaskClickWarning : string :=
  "GanttChart: onTaskClick is not yet implemented. Task click handlers require additional Mermaid configuration.".

(** [GanttChart] *)
Definition GanttChart (props : GanttChartProps.t) : outcome Rendering.t :=
  let className := default EmptyString (GanttChartProps.className props) in
  match convertToMermaidSyntax (GanttChartProps.data props) with
  | Throws what => Throws what
  | Returns conversionResult =>
      if negb (ConversionResult.success conversionResult)
      then
        Returns (Rendering.mk
          (Element "div"
             [("className", "gantt-chart-error " ++ className);
              ("role", "alert"); ("aria-live", "polite")]
             [Element "p" [] [Text "Error creating Gantt chart:"];
              Element "pre" [] (textChild (ConversionResult.error conversionResult))])
          [])
      else
        let warnings :=
          if GanttChartProps.onTaskClick props then [onTaskClickWarning] else [] in
        Returns (Rendering.mk
          (Element "div" [("className", "gantt-chart " ++ className)]
             [MermaidElement (ConversionResult.syntax conversionResult)])
          warnings)
  end.

(** ** The one-time initialization of the rendering library *)

Module MermaidConfig.
Record t : Type := mk {
  startOnLoad : option bool;
  theme : option string;
  securityLevel : option string;
  themeCSS : option string;
  fontFamily : option string;
  logLevel : option string
}.
End MermaidConfig.

Definition DEFAULT_CONFIG : MermaidConfig.t :=
  MermaidConfig.mk (Some false) (Some "default") (Some "strict") None
    (Some "Fira Code, monospace") (Some "error").

Definition DRACULA_THEME_CSS : string := "
  g.classGroup rect {
    fill: #282a36;
    stroke: #6272a4;
  }
  g.classGroup text {
    fill: #f8f8f2;
  }
  g.classGroup line {
    stroke: #f8f8f2;
    stroke-width: 0.5;
  }
  .classLabel .box {
    stroke: #21222c;
    stroke-width: 3;
    fill: #21222c;
    opacity: 1;
  }
  .classLabel .label {
    fill: #f1fa8c;
  }
  .relation {
    stroke: #ff79c6;
    stroke-width: 1;
  }
  #compositionStart, #compositionEnd {
    fill: #bd93f9;
    stroke: #bd93f9;
    stroke-width: 1;
  }
  #aggregationEnd, #aggregationStart {
    fill: #21222c;
    stroke: #50fa7b;
    stroke-width: 1;
  }
  #dependencyStart, #dependencyEnd {
    fill: #00bcd4;
    stroke: #00bcd4;
    stroke-width: 1;
  }
  #extensionStart, #extensionEnd {
    fill: #f8f8f2;
    stroke: #f8f8f2;
    stroke-width: 1;
  }
".

(** One property of [{...base, ...over}]: the later object wins where it has
    the key. *)
Definition spreadField {A : Type} (base over : option A) : option A :=
  match over with
  | Some v => Some v
  | None => base
  end.

(** [{...DEFAULT_CONFIG, ...config, themeCSS: config?.themeCSS || DRACULA_THEME_CSS}] *)
Definition mergedConfig (config : option MermaidConfig.t) : MermaidConfig.t :=
  let over (A : Type) (field : MermaidConfig.t -> option A) : option A :=
    match config with
    | Some c => field c
    | None => None
    end in
  MermaidConfig.mk
    (spreadField (MermaidConfig.startOnLoad DEFAULT_CONFIG) (over _ MermaidConfig.startOnLoad))
    (spreadField (MermaidConfig.theme DEFAULT_CONFIG) (over _ MermaidConfig.theme))
    (spreadField (MermaidConfig.securityLevel DEFAULT_CONFIG) (over _ MermaidConfig.securityLevel))
    (Some (if truthyOpt (over _ MermaidConfig.themeCSS)
           then default EmptyString (over _ MermaidConfig.themeCSS)
           else DRACULA_THEME_CSS))
    (spreadField (MermaidConfig.fontFamily DEFAULT_CONFIG) (over _ MermaidConfig.fontFamily))
    (spreadField (MermaidConfig.logLevel DEFAULT_CONFIG) (over _ MermaidConfig.logLevel)).

(** The module-level flag [isInitialized], and the calls of
    [mermaid.initialize] made so far, oldest first. *)
Module MermaidModule.
Record t : Type := mk {
  isInitialized : bool;
  initializeCalls : list MermaidConfig.t
}.
End MermaidModule.

Definition freshModule : MermaidModule.t := MermaidModule.mk false [].

(** [initializeMermaid] *)
Definition initializeMermaid (config : option MermaidConfig.t)
    (m : MermaidModule.t) : MermaidModule.t :=
  if negb (MermaidModule.isInitialized m)
  then MermaidModule.mk true
         (MermaidModule.initializeCalls m ++ [mergedConfig config])%list
  else m.

(** * Vocabulary of the properties *)

(** A digit is one of the ten characters 0 to 9. *)
Definition digitChar (c : ascii) : Prop :=
  In c (list_ascii_of_string "0123456789").

(** A unit letter is one of d, w, h, m. *)
Definition unitLetter (c : ascii) : Prop :=
  In c (list_ascii_of_string "dwhm").

Fixpoint digits (s : string) : Prop :=
  match s with
  | EmptyString => True
  | String c s' => digitChar c /\ digits s'
  end.

(** One or more digits followed by exactly one unit letter, nothing else. *)
Definition shorthandToken (s : string) : Prop :=
  exists ds u,
    s = ds ++ String u EmptyString /\ ds <> EmptyString /\ digits ds /\ unitLetter u.

(** Four digits, a dash, two digits, a dash, two digits. *)
Definition strictDate (s : string) : Prop :=
  exists y m d,
    s = y ++ "-" ++ m ++ "-" ++ d
    /\ digits y /\ String.length y = 4
    /\ digits m /\ String.length m = 2
    /\ digits d /\ String.length d = 2.

(** The checks of [validateTask] that come before the duration. *)
Definition earlierChecksPass (task : GanttTask.t) : Prop :=
  blank (GanttTask.id task) = false
  /\ blank (GanttTask.name task) = false
  /\ falsyOpt (GanttTask.after task) && blank (GanttTask.start task) = false.

(** The status list contains [milestone]. *)
Definition hasMilestone (status : option (list TaskStatus)) : Prop :=
  exists l, status = Some l /\ milestone ∈ l.

(** What the value check of a structured duration rejects: a negative
    value, and a zero value of a task that is no milestone. *)
Definition badValue (status : option (list TaskStatus)) (d : Duration.t) : Prop :=
  (Duration.value d < 0)%Z \/ (Duration.value d = 0%Z /\ ~ hasMilestone status).

(** [task] with its [start] replaced. *)
Definition withStart (task : GanttTask.t) (start : string) : GanttTask.t :=
  GanttTask.mk (GanttTask.id task) (GanttTask.name task) start
    (GanttTask.duration task) (GanttTask.status task) (GanttTask.after task).

(** Every task of the schedule, in scan order. *)
Fixpoint allTasks (sections : list GanttSection.t) : list GanttTask.t :=
  match sections with
  | [] => []
  | section :: rest => (GanttSection.tasks section ++ allTasks rest)%list
  end.

(** The ids of a list of tasks, in order. *)
Definition idsOf (tasks : list GanttTask.t) : list string :=
  GanttTask.id <$> tasks.

(** The section passes [validateSection]. *)
Definition sectionValid (section : GanttSection.t) : Prop :=
  validateSection section = None.

(** The ids are pairwise distinct and none of them is in [seen]. *)
Definition freshIds (ids : list string) (seen : gset string) : Prop :=
  NoDup ids /\ forall x, x ∈ ids -> x ∉ seen.

(** [task.after] is set, to the non-empty string [a]. *)
Definition refersTo (task : GanttTask.t) (a : string) : Prop :=
  GanttTask.after task = Some a /\ a <> EmptyString.

(** A schedule that passed the checks before the dependency pass. *)
Definition earlierPassesDone (sections : list GanttSection.t) : Prop :=
  sections <> []
  /\ Forall sectionValid sections
  /\ NoDup (idsOf (allTasks sections)).

(** The text of the successful result. *)
Definition emittedText (d : GanttData.t) : string := join nl (emitLines d).

Definition failure (e : string) : ConversionResult.t :=
  ConversionResult.mk false None (Some e).

Definition successWith (text : string) : ConversionResult.t :=
  ConversionResult.mk true (Some text) None.

(** The task line, in the words of the specification: the fields, in order,
    the status field being left out when there is no status. *)
Definition statusField (status : option (list TaskStatus)) : list string :=
  match status with
  | None => []
  | Some [] => []
  | Some l => [join ", " (map statusToString l)]
  end.

Definition startField (task : GanttTask.t) : string :=
  match GanttTask.after task with
  | Some (String c a) => "after " ++ String c a
  | _ => GanttTask.start task
  end.

Definition durationField (task : GanttTask.t) : string :=
  match GanttTask.duration task with
  | DObject d => formatDuration d
  | DString s => s
  end.

Definition taskFields (task : GanttTask.t) : list string :=
  ([GanttTask.name task] ++ statusField (GanttTask.status task)
   ++ [GanttTask.id task] ++ [startField task] ++ [durationField task])%list.

Definition taskLine (task : GanttTask.t) : string :=
  "    " ++ join " : " (taskFields task).

(** A directive line: the indent, the keyword, a space, the value. *)
Definition directive (keyword value : string) : string :=
  "    " ++ keyword ++ " " ++ value.

(** The directive of an optional field, in the words of the specification:
    one line when the field is set, none otherwise. A field set to the empty
    string or to the empty list counts as not set. *)
Definition directiveIfSet (keyword : string) (field : option string) : list string :=
  match field with
  | Some (String c v) => [directive keyword (String c v)]
  | _ => []
  end.

Definition excludesDirective (excludes : option (list string)) : list string :=
  match excludes with
  | Some (x :: xs) => [directive "excludes" (join ", " (x :: xs))]
  | _ => []
  end.

Definition directives (config : GanttConfig.t) : list string :=
  (directiveIfSet "title" (GanttConfig.title config)
   ++ directiveIfSet "dateFormat" (GanttConfig.dateFormat config)
   ++ directiveIfSet "axisFormat" (GanttConfig.axisFormat config)
   ++ directiveIfSet "tickInterval" (GanttConfig.tickInterval config)
   ++ excludesDirective (GanttConfig.excludes config))%list.

(** The line is the directive of a field of [config] that is set. *)
Definition directiveOfSetField (config : GanttConfig.t) (line : string) : Prop :=
  (exists v, GanttConfig.title config = Some v /\ line = directive "title" v)
  \/ (exists v, GanttConfig.dateFormat config = Some v
                /\ line = directive "dateFormat" v)
  \/ (exists v, GanttConfig.axisFormat config = Some v
                /\ line = directive "axisFormat" v)
  \/ (exists v, GanttConfig.tickInterval config = Some v
                /\ line = directive "tickInterval" v)
  \/ (exists l, GanttConfig.excludes config = Some l
                /\ line = directive "excludes" (join ", " l)).

Definition indented (line : string) : Prop := exists rest, line = "    " ++ rest.

(** [config] with the three fields that the emitter does not read replaced. *)
Definition withReserved (config : GanttConfig.t) (excludeDates : option (list string))
    (enableClick : option bool) (displayMode : option string) : GanttConfig.t :=
  GanttConfig.mk (GanttConfig.title config) (GanttConfig.dateFormat config)
    (GanttConfig.excludes config) excludeDates enableClick displayMode
    (GanttConfig.axisFormat config) (GanttConfig.tickInterval config).

(** The lines of the sections, in order. *)
Definition sectionLines (sections : list GanttSection.t) : list string :=
  List.concat (map convertSection sections).

(** What [validateTask] asks of a duration. *)
Definition wellFormedDuration (status : option (list TaskStatus))
    (duration : DurationOrString) : Prop :=
  match duration with
  | DString s => shorthandToken s \/ strictDate s
  | DObject d => ~ badValue status d /\ Duration.unit d ∈ ["d"; "w"; "h"; "m"]
  end.

(** What [validateTask] asks of a task: an id and a name that are not blank,
    a reference or a start that is not blank, and a well-formed duration. *)
Definition wellFormedTask (task : GanttTask.t) : Prop :=
  whitespaceOnly (GanttTask.id task) = false
  /\ whitespaceOnly (GanttTask.name task) = false
  /\ ((exists a, refersTo task a) \/ whitespaceOnly (GanttTask.start task) = false)
  /\ wellFormedDuration (GanttTask.status task) (GanttTask.duration task).

(** What [validateSection] asks of a section. *)
Definition wellFormedSection (section : GanttSection.t) : Prop :=
  whitespaceOnly (GanttSection.name section) = false
  /\ GanttSection.tasks section <> []
  /\ Forall wellFormedTask (GanttSection.tasks section).

(** Every reference of a task of the schedule is to the id of one of its
    tasks. *)
Definition referencesResolve (sections : list GanttSection.t) : Prop :=
  forall t a, t ∈ allTasks sections -> refersTo t a ->
              a ∈ idsOf (allTasks sections).

(** [x] is the first id, in scan order, that occurs for the second time. *)
Definition firstRepeated (ids : list string) (x : string) : Prop :=
  exists pre post, ids = (pre ++ x :: post)%list /\ NoDup pre /\ x ∈ pre.

(** The reference of [t] is to no id of the list. *)
Definition dangling (ids : list string) (t : GanttTask.t) (a : string) : Prop :=
  refersTo t a /\ a ∉ ids.

(** [task] with its [duration] replaced. *)
Definition withDuration (task : GanttTask.t) (duration : DurationOrString)
    : GanttTask.t :=
  GanttTask.mk (GanttTask.id task) (GanttTask.name task) (GanttTask.start task)
    duration (GanttTask.status task) (GanttTask.after task).

(** [task] with its [name] and [status] replaced. *)
Definition withNameAndStatus (task : GanttTask.t) (name : string)
    (status : option (list TaskStatus)) : GanttTask.t :=
  GanttTask.mk (GanttTask.id task) name (GanttTask.start task)
    (GanttTask.duration task) status (GanttTask.after task).

(** What the component shows for an error message. *)
Definition errorView (className message : string) : node :=
  Element "div"
    [("className", "gantt-chart-error " ++ className);
     ("role", "alert"); ("aria-live", "polite")]
    [Element "p" [] [Text "Error creating Gantt chart:"];
     Element "pre" [] [Text message]].

(** What the component shows for an emitted text. *)
Definition chartView (className text : string) : node :=
  Element "div" [("className", "gantt-chart " ++ className)]
    [MermaidElement (Some text)].

(** The state after a sequence of calls of [initializeMermaid]. *)
Definition afterCalls (configs : list (option MermaidConfig.t))
    (m : MermaidModule.t) : MermaidModule.t :=
  fold_left (fun m config => initializeMermaid config m) configs m.

(** * Sample tasks and schedules *)

Definition mkTask (id name start : string) (duration : DurationOrString)
    (status : option (list TaskStatus)) (after : option string) : GanttTask.t :=
  GanttTask.mk id name start duration status after.

Definition days (n : Z) : DurationOrString := DObject (Duration.mk n "d").

Definition taskOne : GanttTask.t :=
  mkTask "task1" "Task One" "2024-01-01" (days 5) None None.

Definition taskOneDone : GanttTask.t :=
  mkTask "task1" "Task One" "2024-01-01" (days 5) (Some [done]) None.

Definition scenarioA : GanttData.t :=
  GanttData.mk None [GanttSection.mk "Development" [taskOne]].

Definition bothStartAndAfter : GanttTask.t :=
  mkTask "task2" "Task Two" "2024-01-01" (days 5) None (Some "task1").

Definition afterOnly : GanttTask.t :=
  mkTask "task2" "Task Two" EmptyString (days 5) None (Some "task1").

Definition spaceStart : GanttTask.t :=
  mkTask "task1" "Task One" " " (days 5) None None.

Definition emptyDuration : GanttTask.t :=
  mkTask "task1" "Task One" "2024-01-01" (DString EmptyString) None None.

Definition launch : GanttTask.t :=
  mkTask "launch" "Launch" "2024-01-01" (days 0) (Some [milestone]) None.

Definition zeroDays : GanttTask.t :=
  mkTask "task1" "Regular Task" "2024-01-01" (days 0) None None.

Definition fiveYears : GanttTask.t :=
  mkTask "task1" "Task One" "2024-01-01" (DObject (Duration.mk 5 "y")) None None.

Definition invalidDuration : GanttTask.t :=
  mkTask "task1" "Task" "2024-01-01" (DString "invalid") None None.

Definition endDateTask : GanttTask.t :=
  mkTask "task1" "Task One" "2024-01-01" (DString "2024-01-15") None None.

Definition shorthandTask : GanttTask.t :=
  mkTask "task1" "Task One" "2024-01-01" (DString "5d") None None.

Definition spaceId : GanttTask.t :=
  mkTask " " "Task One" "2024-01-01" (days 5) None None.

Definition spaceName : GanttTask.t :=
  mkTask "task1" "  " "2024-01-01" (days 5) None None.

Definition spaceSection : GanttSection.t := GanttSection.mk " " [taskOne].

Definition noName : GanttTask.t :=
  mkTask "task3" EmptyString "2024-01-01" (days 5) None None.

Definition taskTwo : GanttTask.t :=
  mkTask "task2" "Task Two" "2024-01-08" (days 3) None None.

Definition sectionDup : GanttSection.t :=
  GanttSection.mk "Planning" [taskOne; taskOne].

Definition sectionGood : GanttSection.t :=
  GanttSection.mk "Planning" [taskOne; taskTwo].

Definition sectionBad : GanttSection.t :=
  GanttSection.mk "Development" [noName; taskOne].

(** A duplicate in the first section, a task without a name in the second. *)
Definition duplicateThenStructural : GanttData.t :=
  GanttData.mk None [sectionDup; sectionBad].

(** A task without a name in the second section; its second task repeats an
    id of the first section. *)
Definition structuralThenDuplicate : GanttData.t :=
  GanttData.mk None [sectionGood; sectionBad].

(** Three tasks whose references form a cycle of length two and a
    self-reference. *)
Definition cyclicSchedule : GanttData.t :=
  GanttData.mk None
    [GanttSection.mk "Loop"
       [mkTask "a" "Task A" EmptyString (days 1) None (Some "b");
        mkTask "b" "Task B" EmptyString (days 1) None (Some "a");
        mkTask "c" "Task C" EmptyString (days 1) None (Some "c")]].

Definition danglingSchedule : GanttData.t :=
  GanttData.mk None
    [GanttSection.mk "Development"
       [mkTask "task1" "Task" EmptyString (days 5) None (Some "nonexistent")]].

Definition emptyConfig : GanttConfig.t :=
  GanttConfig.mk None None None None None None None None.

(** Two sections whose only tasks share the id "dup". *)
Definition duplicateAcrossSections : GanttData.t :=
  GanttData.mk None
    [GanttSection.mk "Section 1"
       [mkTask "dup" "Task 1" "2024-01-01" (days 5) None None];
     GanttSection.mk "Section 2"
       [mkTask "dup" "Task 2" "2024-01-10" (days 3) None None]].

(** The second and the third task refer to ids that no task has. *)
Definition twoDangling : GanttData.t :=
  GanttData.mk None
    [GanttSection.mk "Development"
       [mkTask "task1" "Task 1" "2024-01-01" (days 5) None None;
        mkTask "task2" "Task 2" EmptyString (days 5) None (Some "ghost")];
     GanttSection.mk "Testing"
       [mkTask "task3" "Task 3" EmptyString (days 5) None (Some "phantom")]].

Definition emptySection : GanttSection.t := GanttSection.mk "Planning" [].

(** * Properties *)

(** ** Facts about strings *)

Lemma falsy_spec (s : string) : falsy s = true <-> s = EmptyString.
Proof. destruct s; simpl; split; congruence. Qed.

Lemma falsy_app_left (s1 s2 : string) : falsy s1 = false -> falsy (s1 ++ s2) = false.
Proof. destruct s1; simpl; congruence. Qed.

Lemma append_nil_r (s : string) : s ++ EmptyString = s.
Proof. induction s as [|c s IH]; simpl; [reflexivity | now rewrite IH]. Qed.

Lemma append_assoc (s1 s2 s3 : string) : (s1 ++ s2) ++ s3 = s1 ++ (s2 ++ s3).
Proof. induction s1 as [|c s1 IH]; simpl; [reflexivity | now rewrite IH]. Qed.

Lemma append_eq_nil (s1 s2 : string) :
  s1 ++ s2 = EmptyString -> s1 = EmptyString /\ s2 = EmptyString.
Proof. destruct s1; simpl; [tauto | discriminate]. Qed.

Lemma append_inv_head (p s1 s2 : string) : p ++ s1 = p ++ s2 -> s1 = s2.
Proof.
  induction p as [|c p IH]; simpl; intros H; [exact H|].
  injection H as H. now apply IH.
Qed.

Lemma trimEnd_nil_iff (s : string) :
  trimEnd s = EmptyString <-> whitespaceOnly s = true.
Proof.
  induction s as [|c s IH]; simpl; [tauto|].
  destruct (trimEnd s) eqn:E.
  - destruct (isWhiteSpace c); simpl.
    + split; intros _; [now apply IH | reflexivity].
    + split; discriminate.
  - split; [discriminate|].
    intros H. apply andb_true_iff in H as [_ H].
    apply IH in H. discriminate.
Qed.

Lemma trimStart_whitespaceOnly (s : string) :
  whitespaceOnly (trimStart s) = whitespaceOnly s.
Proof.
  induction s as [|c s IH]; simpl; [reflexivity|].
  destruct (isWhiteSpace c) eqn:E; simpl; [exact IH | now rewrite E].
Qed.

Lemma trim_nil_iff (s : string) :
  trim s = EmptyString <-> whitespaceOnly s = true.
Proof.
  unfold trim. rewrite trimEnd_nil_iff. now rewrite trimStart_whitespaceOnly.
Qed.

(** The validator's test of a required string holds exactly of the strings
    made of white space only, the empty one among them. *)
Lemma blank_whitespaceOnly (s : string) : blank s = whitespaceOnly s.
Proof.
  unfold blank. destruct (whitespaceOnly s) eqn:W.
  - apply trim_nil_iff in W. rewrite W. simpl. apply orb_true_r.
  - destruct s as [|c s]; [discriminate|]. simpl.
    destruct (String.eqb (trim (String c s)) EmptyString) eqn:E; [|reflexivity].
    apply String.eqb_eq, trim_nil_iff in E. congruence.
Qed.

Lemma blank_false_nonempty (s : string) : blank s = false -> s <> EmptyString.
Proof. intros H ->. discriminate. Qed.

(** ** The matcher decides the language of a pattern *)

Lemma nullable_lang (r : regex) : nullable r = true -> lang r EmptyString.
Proof.
  induction r; simpl; intros H; try discriminate.
  - constructor.
  - apply andb_true_iff in H as [H1 H2].
    change EmptyString with (EmptyString ++ EmptyString). constructor; auto.
  - apply orb_true_iff in H as [H|H]; [apply lang_alt_l | apply lang_alt_r]; auto.
  - constructor.
Qed.

Lemma lang_nullable (r : regex) (s : string) :
  lang r s -> s = EmptyString -> nullable r = true.
Proof.
  induction 1; simpl; intros E; try reflexivity; try discriminate.
  - apply append_eq_nil in E as [-> ->]. rewrite IHlang1, IHlang2; reflexivity.
  - rewrite IHlang by assumption. reflexivity.
  - rewrite IHlang by assumption. apply orb_true_r.
Qed.

Lemma deriv_lang (c : ascii) (r : regex) :
  forall s, lang (deriv c r) s -> lang r (String c s).
Proof.
  induction r; simpl; intros s H.
  - inversion H.
  - inversion H.
  - destruct (p c) eqn:E; inversion H; subst. now constructor.
  - assert (Hcat : forall w, lang (Cat (deriv c r1) r2) w -> lang (Cat r1 r2) (String c w)).
    { intros w Hw. inversion Hw; subst.
      change (String c (s1 ++ s2)) with (String c s1 ++ s2). constructor; auto. }
    destruct (nullable r1) eqn:N; [|auto].
    inversion H; subst; [auto|].
    change (String c s) with (EmptyString ++ String c s).
    constructor; [now apply nullable_lang | auto].
  - inversion H; subst; [apply lang_alt_l | apply lang_alt_r]; auto.
  - inversion H; subst.
    change (String c (s1 ++ s2)) with (String c s1 ++ s2). constructor; auto.
Qed.

Lemma lang_deriv (r : regex) (w : string) :
  lang r w -> forall a t, w = String a t -> lang (deriv a r) t.
Proof.
  induction 1 as [ | p c Hp | r1 r2 s1 s2 H1 IH1 H2 IH2 | r1 r2 s H1 IH1
                 | r1 r2 s H2 IH2 | r | r s1 s2 H1 IH1 H2 IH2 ];
    intros a t E; simpl.
  - discriminate.
  - injection E as -> <-. rewrite Hp. constructor.
  - destruct s1 as [|c1 s1]; simpl in E.
    + assert (N : nullable r1 = true) by (eapply lang_nullable; eauto).
      rewrite N. apply lang_alt_r. eauto.
    + injection E as -> <-.
      assert (L : lang (Cat (deriv a r1) r2) (s1 ++ s2)) by (constructor; eauto).
      destruct (nullable r1); [now apply lang_alt_l | exact L].
  - apply lang_alt_l. eauto.
  - apply lang_alt_r. eauto.
  - discriminate.
  - destruct s1 as [|c1 s1]; simpl in E.
    + apply (IH2 a t E).
    + injection E as -> <-. constructor; eauto.
Qed.

Theorem test_lang (r : regex) (s : string) : test r s = true <-> lang r s.
Proof.
  revert r. induction s as [|c s IH]; intros r; simpl.
  - split; [apply nullable_lang | intros H; eapply lang_nullable; eauto].
  - rewrite IH. split; [apply deriv_lang | intros H; eapply lang_deriv; eauto].
Qed.

(** ** The two patterns and the shapes they stand for *)

Lemma oneOf_In (set : string) (c : ascii) :
  oneOf set c = true <-> In c (list_ascii_of_string set).
Proof.
  induction set as [|x set IH]; simpl.
  - split; [discriminate | tauto].
  - rewrite orb_true_iff, IH, Ascii.eqb_eq. tauto.
Qed.

Lemma isDigit_oneOf (c : ascii) : isDigit c = oneOf "0123456789" c.
Proof.
  destruct c as [[] [] [] [] [] [] [] []]; vm_compute; reflexivity.
Qed.

Lemma isDigit_digitChar (c : ascii) : isDigit c = true <-> digitChar c.
Proof. rewrite isDigit_oneOf. apply oneOf_In. Qed.

Lemma unit_oneOf (c : ascii) : oneOf "dwmh" c = true <-> unitLetter c.
Proof. unfold unitLetter. rewrite oneOf_In. simpl. tauto. Qed.

Lemma dash_oneOf (c : ascii) : oneOf "-" c = true <-> String c EmptyString = "-".
Proof.
  change (oneOf "-" c) with (Ascii.eqb "-" c || false).
  rewrite orb_false_r, Ascii.eqb_eq.
  split; [intros <-; reflexivity | intros H; injection H; auto].
Qed.

Lemma lang_class_inv (p : ascii -> bool) (s : string) :
  lang (Class p) s <-> exists c, s = String c EmptyString /\ p c = true.
Proof.
  split.
  - intros H. inversion H; subst. eauto.
  - intros (c & -> & H). now constructor.
Qed.

Lemma lang_cat_inv (r1 r2 : regex) (s : string) :
  lang (Cat r1 r2) s <-> exists s1 s2, s = s1 ++ s2 /\ lang r1 s1 /\ lang r2 s2.
Proof.
  split.
  - intros H. inversion H; subst. eauto.
  - intros (s1 & s2 & -> & H1 & H2). now constructor.
Qed.

Lemma lang_star_digits (r : regex) (s : string) :
  lang r s -> r = Star (Class isDigit) -> digits s.
Proof.
  induction 1 as [ | | | | | | r s1 s2 H1 _ H2 IH2 ]; intros E;
    try discriminate; simpl; [exact I|].
  injection E as ->. apply lang_class_inv in H1 as (c & -> & Hc).
  simpl. split; [now apply isDigit_digitChar | auto].
Qed.

Lemma digits_lang_star (s : string) : digits s -> lang (Star (Class isDigit)) s.
Proof.
  induction s as [|c s IH]; simpl; intros H; [constructor|].
  destruct H as [Hc Hs].
  change (String c s) with (String c EmptyString ++ s).
  constructor; [constructor; now apply isDigit_digitChar | auto].
Qed.

Lemma lang_times_digits (n : nat) (s : string) :
  lang (Times n (Class isDigit)) s <-> digits s /\ String.length s = n.
Proof.
  revert s. induction n as [|n IH]; intros s; simpl.
  - split.
    + intros H. inversion H; subst. simpl. auto.
    + intros [_ H]. destruct s; [constructor | discriminate].
  - rewrite lang_cat_inv. split.
    + intros (s1 & s2 & -> & H1 & H2).
      apply lang_class_inv in H1 as (c & -> & Hc).
      apply IH in H2 as [H2 <-]. simpl.
      split; [split; [now apply isDigit_digitChar | exact H2] | reflexivity].
    + intros [Hd Hl]. destruct s as [|c s]; [discriminate|].
      simpl in Hd, Hl. destruct Hd as [Hc Hs]. injection Hl as Hl.
      exists (String c EmptyString), s. split; [reflexivity|].
      split; [constructor; now apply isDigit_digitChar | apply IH; auto].
Qed.

(** [isDurationString] accepts exactly the shorthand duration tokens. *)
Lemma isDurationString_shorthandToken (s : string) :
  isDurationString s = true <-> shorthandToken s.
Proof.
  unfold isDurationString, durationRe, Plus, shorthandToken.
  rewrite test_lang, lang_cat_inv. split.
  - intros (s1 & s2 & -> & H1 & H2).
    apply lang_cat_inv in H1 as (a & b & -> & Ha & Hb).
    apply lang_class_inv in Ha as (c & -> & Hc).
    apply lang_class_inv in H2 as (u & -> & Hu).
    exists (String c b), u. split; [reflexivity|].
    split; [discriminate|].
    split; [|now apply unit_oneOf].
    simpl. split; [now apply isDigit_digitChar|].
    eapply lang_star_digits; eauto.
  - intros (ds & u & -> & Hne & Hd & Hu).
    exists ds, (String u EmptyString). split; [reflexivity|].
    split; [|constructor; now apply unit_oneOf].
    destruct ds as [|c ds]; [congruence|]. destruct Hd as [Hc Hd].
    apply lang_cat_inv. exists (String c EmptyString), ds.
    split; [reflexivity|].
    split; [constructor; now apply isDigit_digitChar | now apply digits_lang_star].
Qed.

(** The date pattern accepts exactly the strings of the strict date shape. *)
Lemma isoDateRe_strictDate (s : string) :
  test isoDateRe s = true <-> strictDate s.
Proof.
  unfold isoDateRe, strictDate. rewrite test_lang, lang_cat_inv. split.
  - intros (y & r1 & -> & Hy & H1).
    apply lang_cat_inv in H1 as (d1 & r2 & -> & Hd1 & H2).
    apply lang_cat_inv in H2 as (m & r3 & -> & Hm & H3).
    apply lang_cat_inv in H3 as (d2 & d & -> & Hd2 & Hd).
    apply lang_class_inv in Hd1 as (c1 & -> & Hc1). apply dash_oneOf in Hc1.
    apply lang_class_inv in Hd2 as (c2 & -> & Hc2). apply dash_oneOf in Hc2.
    rewrite Hc1, Hc2.
    apply lang_times_digits in Hy as [? ?].
    apply lang_times_digits in Hm as [? ?].
    apply lang_times_digits in Hd as [? ?].
    exists y, m, d. tauto.
  - intros (y & m & d & -> & Hy & Ly & Hm & Lm & Hd & Ld).
    exists y, ("-" ++ m ++ "-" ++ d). split; [reflexivity|].
    split; [apply lang_times_digits; auto|].
    apply lang_cat_inv. exists "-", (m ++ "-" ++ d). split; [reflexivity|].
    split; [now constructor|].
    apply lang_cat_inv. exists m, ("-" ++ d). split; [reflexivity|].
    split; [apply lang_times_digits; auto|].
    apply lang_cat_inv. exists "-", d. split; [reflexivity|].
    split; [now constructor | apply lang_times_digits; auto].
Qed.

(** ** Facts about the messages *)

Lemma Some_inj {A : Type} (x y : A) : Some x = Some y -> x = y.
Proof. congruence. Qed.

(** Two messages that agree on a prefix differ where their texts differ. *)
Ltac message_differs H :=
  unfold msgMissingId, msgMissingName, msgMissingStart, msgMissingDuration,
    msgDurationFormat, msgDurationValue, msgDurationUnit, msgSectionName,
    msgNoTasks, msgDataRequired, msgNoSections, msgDuplicate, msgDependency,
    quoted, dq in H;
  rewrite ?append_assoc in H; simpl in H;
  repeat first
    [ discriminate H
    | injection H as H
    | apply append_inv_head in H; simpl in H ].

Lemma msgMissingStart_not_duration (id sec : string) :
  msgMissingStart id sec <> msgMissingDuration id sec.
Proof. intros H. message_differs H. Qed.

Lemma msgMissingStart_not_format (id sec s : string) :
  msgMissingStart id sec <> msgDurationFormat id s.
Proof. intros H. message_differs H. Qed.

Lemma msgMissingStart_not_value (id sec : string) (v : Z) :
  msgMissingStart id sec <> msgDurationValue id v.
Proof. intros H. message_differs H. Qed.

Lemma msgMissingStart_not_unit (id sec u : string) :
  msgMissingStart id sec <> msgDurationUnit id u.
Proof. intros H. message_differs H. Qed.

Lemma msgDurationValue_not_unit (id u : string) (v : Z) :
  msgDurationValue id v <> msgDurationUnit id u.
Proof. intros H. message_differs H. Qed.

Lemma msgMissingDuration_not_format (id sec s : string) :
  msgMissingDuration id sec <> msgDurationFormat id s.
Proof. intros H. message_differs H. Qed.

(** ** The per-task checks *)

Lemma isMilestone_spec (status : option (list TaskStatus)) :
  isMilestone status = true <-> hasMilestone status.
Proof.
  unfold hasMilestone. destruct status as [l|]; simpl.
  - rewrite bool_decide_eq_true. split; [eauto | intros (l' & E & H); congruence].
  - split; [discriminate | intros (l' & E & _); discriminate].
Qed.

Lemma isUnit_spec (u : string) : isUnit u = true <-> u ∈ ["d"; "w"; "h"; "m"].
Proof. unfold isUnit. apply bool_decide_eq_true. Qed.

Lemma validateTask_blank_id (task : GanttTask.t) (sec : string) :
  blank (GanttTask.id task) = true ->
  validateTask task sec = Some (msgMissingId sec).
Proof. intros H. unfold validateTask. now rewrite H. Qed.

Lemma validateTask_blank_name (task : GanttTask.t) (sec : string) :
  blank (GanttTask.id task) = false ->
  blank (GanttTask.name task) = true ->
  validateTask task sec = Some (msgMissingName (GanttTask.id task) sec).
Proof. intros H1 H2. unfold validateTask. now rewrite H1, H2. Qed.

Lemma validateTask_start (task : GanttTask.t) (sec : string) :
  blank (GanttTask.id task) = false ->
  blank (GanttTask.name task) = false ->
  falsyOpt (GanttTask.after task) && blank (GanttTask.start task) = true ->
  validateTask task sec = Some (msgMissingStart (GanttTask.id task) sec).
Proof. intros H1 H2 H3. unfold validateTask. now rewrite H1, H2, H3. Qed.

(** Once the earlier checks have passed, the result is that of the checks on
    the duration. *)
Lemma validateTask_duration (task : GanttTask.t) (sec : string) :
  earlierChecksPass task ->
  validateTask task sec =
    match GanttTask.duration task with
    | DString s =>
        if falsy s then Some (msgMissingDuration (GanttTask.id task) sec)
        else if negb (isDurationString s) && negb (test isoDateRe s)
        then Some (msgDurationFormat (GanttTask.id task) s)
        else None
    | DObject d =>
        validateDurationObject (GanttTask.id task) (GanttTask.status task) d
    end.
Proof.
  intros (H1 & H2 & H3). unfold validateTask. rewrite H1, H2, H3.
  destruct (GanttTask.duration task) as [d|s]; simpl; [reflexivity|].
  destruct (falsy s); reflexivity.
Qed.

(** Every message of [validateTask] is a non-empty string, so the callers'
    truthiness tests see every error. *)
Lemma validateTask_truthy (task : GanttTask.t) (sec e : string) :
  validateTask task sec = Some e -> falsy e = false.
Proof.
  unfold validateTask, validateDurationObject.
  repeat match goal with
         | |- context [if ?b then _ else _] => destruct b
         | |- context [match ?d with DObject _ => _ | DString _ => _ end] => destruct d
         end;
    intros H; try discriminate; injection H as <-; reflexivity.
Qed.

Lemma truthyError_validateTask (task : GanttTask.t) (sec : string) :
  truthyError (validateTask task sec) = false <-> validateTask task sec = None.
Proof.
  destruct (validateTask task sec) as [e|] eqn:E; simpl.
  - apply validateTask_truthy in E. unfold truthyError, truthyOpt. simpl.
    rewrite E. simpl. split; discriminate.
  - tauto.
Qed.

Lemma badValue_spec (status : option (list TaskStatus)) (d : Duration.t) :
  (Duration.value d <? 0)%Z
  || (negb (isMilestone status) && (Duration.value d =? 0)%Z) = true
  <-> badValue status d.
Proof.
  unfold badValue.
  rewrite orb_true_iff, andb_true_iff, negb_true_iff, Z.ltb_lt, Z.eqb_eq.
  rewrite <- isMilestone_spec, not_true_iff_false. tauto.
Qed.

(** C2, as the code has it: for a task whose id and name are present,
    [validateTask] fails with the "missing a start date or dependency" error
    iff [after] is absent or empty and [start] is empty or made of white
    space only; a task whose [after] is set never gets that error, and its
    [start], empty or not, has no influence on the result. *)
Theorem C2_start_or_dependency (task : GanttTask.t) (sec : string) :
  blank (GanttTask.id task) = false ->
  blank (GanttTask.name task) = false ->
  (validateTask task sec = Some (msgMissingStart (GanttTask.id task) sec)
   <-> falsyOpt (GanttTask.after task) = true
       /\ whitespaceOnly (GanttTask.start task) = true)
  /\ (truthyOpt (GanttTask.after task) = true ->
      validateTask task sec <> Some (msgMissingStart (GanttTask.id task) sec)
      /\ forall start', validateTask (withStart task start') sec = validateTask task sec).
Proof.
  intros Hid Hname.
  assert (Hiff : validateTask task sec = Some (msgMissingStart (GanttTask.id task) sec)
                 <-> falsyOpt (GanttTask.after task) = true
                     /\ whitespaceOnly (GanttTask.start task) = true).
  { rewrite <- blank_whitespaceOnly, <- andb_true_iff. split.
    - destruct (falsyOpt (GanttTask.after task) && blank (GanttTask.start task)) eqn:E;
        [reflexivity|].
      rewrite validateTask_duration by (repeat split; assumption).
      unfold validateDurationObject.
      destruct (GanttTask.duration task) as [d|s];
        repeat match goal with
               | |- context [if ?b then _ else _] => destruct b
               end;
        intros H; try discriminate; apply Some_inj in H; exfalso; symmetry in H;
        revert H.
      + apply msgMissingStart_not_value.
      + apply msgMissingStart_not_unit.
      + apply msgMissingStart_not_duration.
      + apply msgMissingStart_not_format.
    - intros E. now apply validateTask_start. }
  split; [exact Hiff|].
  intros Hafter. split.
  - rewrite Hiff. unfold truthyOpt in Hafter. apply negb_true_iff in Hafter.
    intros [H _]. congruence.
  - intros start'. unfold truthyOpt in Hafter. apply negb_true_iff in Hafter.
    unfold validateTask, withStart. simpl. rewrite Hafter. reflexivity.
Qed.

Lemma C2_start_or_dependency_witness :
  validateTask spaceStart "Planning" = Some (msgMissingStart "task1" "Planning")
  /\ validateTask afterOnly "Planning" <> Some (msgMissingStart "task2" "Planning")
  /\ validateTask (withStart afterOnly "2024-01-01") "Planning"
     = validateTask afterOnly "Planning".
Proof.
  split.
  - destruct (C2_start_or_dependency spaceStart "Planning") as (H & _);
      [reflexivity | reflexivity|].
    apply H. split; reflexivity.
  - destruct (C2_start_or_dependency afterOnly "Planning") as (_ & H);
      [reflexivity | reflexivity|].
    destruct H as (H1 & H2); [reflexivity|].
    split; [exact H1 | apply H2].
Defined.

(** C2 as it is worded fails: a task with both [after] set and a non-empty
    [start] is valid, and a task whose [start] is a single space, hence not
    empty, with no [after] gets the "missing a start date or dependency"
    error. *)
Lemma C2_counterexample :
  truthyOpt (GanttTask.after bothStartAndAfter) = true
  /\ GanttTask.start bothStartAndAfter <> EmptyString
  /\ validateTask bothStartAndAfter "Planning" = None
  /\ GanttTask.start spaceStart <> EmptyString
  /\ validateTask spaceStart "Planning"
     = Some (msgMissingStart "task1" "Planning").
Proof. repeat split; try reflexivity; discriminate. Qed.

(** C3: for a task that passed the earlier checks and whose duration is a
    structured Duration, [validateTask] fails with the "invalid duration
    value" error iff the value is negative, or is zero while the status list
    does not contain milestone; a zero value of a milestone passes the value
    check; once the value check has passed, a unit outside d, w, h, m fails
    with the "invalid duration unit" error and a unit among them is
    accepted. *)
Theorem C3_structured_duration (task : GanttTask.t) (sec : string) (d : Duration.t) :
  earlierChecksPass task ->
  GanttTask.duration task = DObject d ->
  let id := GanttTask.id task in
  let status := GanttTask.status task in
  (validateTask task sec = Some (msgDurationValue id (Duration.value d))
   <-> badValue status d)
  /\ (Duration.value d = 0%Z -> hasMilestone status ->
      validateTask task sec <> Some (msgDurationValue id (Duration.value d)))
  /\ (~ badValue status d -> Duration.unit d ∉ ["d"; "w"; "h"; "m"] ->
      validateTask task sec = Some (msgDurationUnit id (Duration.unit d)))
  /\ (~ badValue status d -> Duration.unit d ∈ ["d"; "w"; "h"; "m"] ->
      validateTask task sec = None).
Proof.
  intros Hpass Hd id status.
  rewrite (validateTask_duration task sec Hpass), Hd.
  unfold validateDurationObject. fold id status.
  pose proof (badValue_spec status d) as Hbad.
  destruct ((Duration.value d <? 0)%Z
            || (negb (isMilestone status) && (Duration.value d =? 0)%Z)) eqn:E.
  - assert (B : badValue status d) by (apply Hbad; reflexivity).
    split; [tauto|]. split; [|tauto].
    intros Hz Hm. exfalso. destruct B as [B|[_ B]]; [lia | tauto].
  - assert (B : ~ badValue status d) by (rewrite <- Hbad; discriminate).
    pose proof (isUnit_spec (Duration.unit d)) as Hu.
    destruct (isUnit (Duration.unit d)) eqn:U; simpl.
    + assert (Hin : Duration.unit d ∈ ["d"; "w"; "h"; "m"]) by (apply Hu; reflexivity).
      repeat split; try discriminate; try tauto.
    + assert (Hout : Duration.unit d ∉ ["d"; "w"; "h"; "m"])
        by (rewrite <- Hu; discriminate).
      repeat split; try tauto.
      * intros H. apply Some_inj in H. symmetry in H.
        exfalso. revert H. apply msgDurationValue_not_unit.
      * intros _ _ H. apply Some_inj in H. symmetry in H.
        revert H. apply msgDurationValue_not_unit.
Qed.

Lemma C3_structured_duration_witness :
  validateTask launch "Release" = None
  /\ validateTask zeroDays "Release" = Some (msgDurationValue "task1" 0)
  /\ validateTask fiveYears "Release" = Some (msgDurationUnit "task1" "y").
Proof.
  assert (Hlaunch : ~ badValue (Some [milestone]) (Duration.mk 0 "d")).
  { intros [H|[_ H]]; [discriminate H|]. apply H. exists [milestone].
    split; [reflexivity | left]. }
  assert (Hfive : ~ badValue None (Duration.mk 5 "y")).
  { intros [H|[H _]]; discriminate H. }
  split; [|split].
  - destruct (C3_structured_duration launch "Release" (Duration.mk 0 "d"))
      as (_ & _ & _ & H); [repeat split; reflexivity | reflexivity|].
    apply H; [exact Hlaunch|]. left.
  - destruct (C3_structured_duration zeroDays "Release" (Duration.mk 0 "d"))
      as (H & _); [repeat split; reflexivity | reflexivity|].
    apply H. right. split; [reflexivity|].
    intros (l & E & _). discriminate E.
  - destruct (C3_structured_duration fiveYears "Release" (Duration.mk 5 "y"))
      as (_ & _ & H & _); [repeat split; reflexivity | reflexivity|].
    apply H; [exact Hfive|].
    intros Hin. apply (bool_decide_pack _) in Hin. vm_compute in Hin. exact Hin.
Defined.

(** C4, as the code has it: for a task that passed the earlier checks and
    whose duration is a string, [validateTask] accepts the string iff it is a
    shorthand duration token or has the strict date shape; any other string
    that is not empty fails with the "invalid duration format" error, and
    the empty string fails with the "missing a duration" error. *)
Theorem C4_string_duration (task : GanttTask.t) (sec s : string) :
  earlierChecksPass task ->
  GanttTask.duration task = DString s ->
  (validateTask task sec = None <-> shorthandToken s \/ strictDate s)
  /\ (s <> EmptyString -> ~ (shorthandToken s \/ strictDate s) ->
      validateTask task sec = Some (msgDurationFormat (GanttTask.id task) s))
  /\ (s = EmptyString ->
      validateTask task sec = Some (msgMissingDuration (GanttTask.id task) sec)).
Proof.
  intros Hpass Hd.
  rewrite (validateTask_duration task sec Hpass), Hd.
  rewrite <- isDurationString_shorthandToken, <- isoDateRe_strictDate.
  destruct s as [|c s].
  - simpl. repeat split; try discriminate; try congruence.
    intros [H|H]; discriminate.
  - simpl falsy. cbv iota.
    destruct (isDurationString (String c s)), (test isoDateRe (String c s)); simpl;
      intuition congruence.
Qed.

Lemma C4_string_duration_witness :
  validateTask shorthandTask "Planning" = None
  /\ validateTask endDateTask "Planning" = None
  /\ validateTask invalidDuration "Planning"
     = Some (msgDurationFormat "task1" "invalid")
  /\ validateTask emptyDuration "Planning"
     = Some (msgMissingDuration "task1" "Planning").
Proof.
  split; [|split; [|split]].
  - destruct (C4_string_duration shorthandTask "Planning" "5d") as (H & _);
      [repeat split; reflexivity | reflexivity|].
    apply H. left. apply isDurationString_shorthandToken. reflexivity.
  - destruct (C4_string_duration endDateTask "Planning" "2024-01-15") as (H & _);
      [repeat split; reflexivity | reflexivity|].
    apply H. right. apply isoDateRe_strictDate. reflexivity.
  - destruct (C4_string_duration invalidDuration "Planning" "invalid")
      as (_ & H & _); [repeat split; reflexivity | reflexivity|].
    apply H; [discriminate|].
    rewrite <- isDurationString_shorthandToken, <- isoDateRe_strictDate.
    intros [E|E]; discriminate E.
  - destruct (C4_string_duration emptyDuration "Planning" EmptyString)
      as (_ & _ & H); [repeat split; reflexivity | reflexivity|].
    apply H. reflexivity.
Defined.

(** C4 as it is worded fails on the empty string: it has neither shape, and
    the error it gets is "missing a duration", not "invalid duration
    format". *)
Lemma C4_counterexample :
  GanttTask.duration emptyDuration = DString EmptyString
  /\ ~ (shorthandToken EmptyString \/ strictDate EmptyString)
  /\ validateTask emptyDuration "Planning"
     = Some (msgMissingDuration "task1" "Planning")
  /\ validateTask emptyDuration "Planning"
     <> Some (msgDurationFormat "task1" EmptyString).
Proof.
  split; [reflexivity|]. split.
  - rewrite <- isDurationString_shorthandToken, <- isoDateRe_strictDate.
    intros [H|H]; discriminate.
  - split; [reflexivity|]. discriminate.
Qed.

(** C10: a required string made of white space only is treated as a missing
    one. A task whose id is white space fails with "missing an ID"; with an
    id present, a name of white space fails with "missing a name"; with id
    and name present and no [after], a start of white space fails with
    "missing a start date or dependency"; and a section whose name is white
    space fails with "Section is missing a name". *)
Theorem C10_whitespace_is_missing
    (task : GanttTask.t) (sec : string) (section : GanttSection.t) :
  (whitespaceOnly (GanttTask.id task) = true ->
   validateTask task sec = Some (msgMissingId sec))
  /\ (blank (GanttTask.id task) = false ->
      whitespaceOnly (GanttTask.name task) = true ->
      validateTask task sec = Some (msgMissingName (GanttTask.id task) sec))
  /\ (blank (GanttTask.id task) = false ->
      blank (GanttTask.name task) = false ->
      falsyOpt (GanttTask.after task) = true ->
      whitespaceOnly (GanttTask.start task) = true ->
      validateTask task sec = Some (msgMissingStart (GanttTask.id task) sec))
  /\ (whitespaceOnly (GanttSection.name section) = true ->
      validateSection section = Some msgSectionName).
Proof.
  repeat split.
  - intros H. apply validateTask_blank_id. now rewrite blank_whitespaceOnly.
  - intros H1 H2. apply validateTask_blank_name; [assumption|].
    now rewrite blank_whitespaceOnly.
  - intros H1 H2 H3 H4. apply validateTask_start; try assumption.
    now rewrite H3, blank_whitespaceOnly, H4.
  - intros H. unfold validateSection. now rewrite blank_whitespaceOnly, H.
Qed.

Lemma C10_whitespace_is_missing_witness :
  validateTask spaceId "Planning" = Some (msgMissingId "Planning")
  /\ validateTask spaceName "Planning" = Some (msgMissingName "task1" "Planning")
  /\ validateTask spaceStart "Planning" = Some (msgMissingStart "task1" "Planning")
  /\ validateSection spaceSection = Some msgSectionName.
Proof.
  split; [|split; [|split]].
  - apply (C10_whitespace_is_missing spaceId "Planning" spaceSection). reflexivity.
  - apply (C10_whitespace_is_missing spaceName "Planning" spaceSection); reflexivity.
  - apply (C10_whitespace_is_missing spaceStart "Planning" spaceSection); reflexivity.
  - apply (C10_whitespace_is_missing spaceId "Planning" spaceSection). reflexivity.
Defined.

(** ** The passes over the sections *)

Lemma allTasks_app (l1 l2 : list GanttSection.t) :
  allTasks (l1 ++ l2) = (allTasks l1 ++ allTasks l2)%list.
Proof.
  induction l1 as [|s l1 IH]; simpl; [reflexivity|].
  now rewrite IH, app_assoc.
Qed.

Lemma validateTasks_truthy (tasks : list GanttTask.t) (sec e : string) :
  validateTasks tasks sec = Some e -> falsy e = false.
Proof.
  induction tasks as [|t tasks IH]; simpl; [discriminate|].
  destruct (truthyError (validateTask t sec)) eqn:E; [|exact IH].
  apply validateTask_truthy.
Qed.

Lemma validateTasks_first_error (pre post : list GanttTask.t) (t : GanttTask.t)
    (sec e : string) :
  Forall (fun x => validateTask x sec = None) pre ->
  validateTask t sec = Some e ->
  validateTasks (pre ++ t :: post) sec = Some e.
Proof.
  intros Hpre Ht. induction Hpre as [|x pre Hx _ IH]; simpl.
  - rewrite Ht. unfold truthyError, truthyOpt. simpl.
    now rewrite (validateTask_truthy t sec e Ht).
  - now rewrite Hx.
Qed.

Lemma validateSection_truthy (section : GanttSection.t) (e : string) :
  validateSection section = Some e -> falsy e = false.
Proof.
  unfold validateSection.
  destruct (blank (GanttSection.name section)).
  - intros H. injection H as <-. reflexivity.
  - destruct (Nat.eqb _ 0).
    + intros H. injection H as <-. reflexivity.
    + apply validateTasks_truthy.
Qed.

Lemma truthyError_validateSection (section : GanttSection.t) :
  truthyError (validateSection section) = false <-> sectionValid section.
Proof.
  unfold sectionValid.
  destruct (validateSection section) as [e|] eqn:E; simpl; [|tauto].
  apply validateSection_truthy in E. unfold truthyError, truthyOpt. simpl.
  rewrite E. simpl. split; discriminate.
Qed.

Lemma truthyError_Some (e : string) :
  falsy e = false -> truthyError (Some e) = true.
Proof. intros H. unfold truthyError, truthyOpt. simpl. now rewrite H. Qed.

(** The first error of a section is the error of its first failing task. *)
Lemma validateSection_task_error (section : GanttSection.t)
    (pre post : list GanttTask.t) (t : GanttTask.t) (e : string) :
  blank (GanttSection.name section) = false ->
  GanttSection.tasks section = (pre ++ t :: post)%list ->
  Forall (fun x => validateTask x (GanttSection.name section) = None) pre ->
  validateTask t (GanttSection.name section) = Some e ->
  validateSection section = Some e.
Proof.
  intros Hname Htasks Hpre Ht. unfold validateSection. rewrite Hname, Htasks.
  rewrite length_app. simpl.
  replace (Nat.eqb _ 0) with false
    by (symmetry; apply Nat.eqb_neq; lia).
  now apply validateTasks_first_error.
Qed.

Lemma idsOf_cons (t : GanttTask.t) (tasks : list GanttTask.t) :
  idsOf (t :: tasks) = GanttTask.id t :: idsOf tasks.
Proof. reflexivity. Qed.

Lemma idsOf_app (l1 l2 : list GanttTask.t) :
  idsOf (l1 ++ l2) = (idsOf l1 ++ idsOf l2)%list.
Proof. unfold idsOf. apply fmap_app. Qed.

(** The inner loop runs to its end exactly when the ids are pairwise distinct
    and new, and then it has added them all. *)
Lemma scanTaskIds_Continued (tasks : list GanttTask.t) (seen ids : gset string) :
  scanTaskIds tasks seen = Continued ids
  <-> NoDup (idsOf tasks)
      /\ (forall x, x ∈ idsOf tasks -> x ∉ seen)
      /\ ids = list_to_set (idsOf tasks) ∪ seen.
Proof.
  revert seen. induction tasks as [|t tasks IH]; intros seen.
  - cbn [scanTaskIds]. split.
    + intros H. injection H as <-. split; [constructor|]. split.
      * intros x Hx. inversion Hx.
      * set_solver.
    + intros (_ & _ & ->). f_equal. set_solver.
  - cbn [scanTaskIds]. rewrite idsOf_cons. case_bool_decide as Hin.
    + split; [discriminate|]. intros (_ & H & _). exfalso.
      apply (H (GanttTask.id t)); [left | exact Hin].
    + rewrite IH, NoDup_cons. split.
      * intros (Hnd & Hnew & ->). split; [split; [|exact Hnd]|].
        -- intros Hin'. apply (Hnew _ Hin'). set_solver.
        -- split; [|set_solver].
           intros x Hx. apply elem_of_cons in Hx as [->|Hx]; [exact Hin|].
           specialize (Hnew x Hx). set_solver.
      * intros ((Hfresh & Hnd) & Hnew & ->). split; [exact Hnd|].
        split; [|set_solver].
        intros x Hx Hx'. apply elem_of_union in Hx' as [Hx'|Hx'].
        -- apply elem_of_singleton in Hx' as ->. contradiction.
        -- apply (Hnew x); [now right | exact Hx'].
Qed.

(** When the inner loop returns, it returns a duplicate-ID message. *)
Lemma scanTaskIds_Returned (tasks : list GanttTask.t) (seen : gset string)
    (e : option string) :
  scanTaskIds tasks seen = Returned e ->
  exists x, x ∈ idsOf tasks /\ e = Some (msgDuplicate x).
Proof.
  revert seen. induction tasks as [|t tasks IH]; intros seen; cbn [scanTaskIds];
    [discriminate|].
  rewrite idsOf_cons. case_bool_decide as Hin.
  - intros H. injection H as <-. exists (GanttTask.id t). split; [left | reflexivity].
  - intros H. apply IH in H as (x & Hx & ->). exists x. split; [now right | reflexivity].
Qed.

Lemma freshIds_app (l1 l2 : list string) (seen : gset string) :
  freshIds (l1 ++ l2) seen
  <-> freshIds l1 seen /\ freshIds l2 (list_to_set l1 ∪ seen).
Proof.
  unfold freshIds. rewrite NoDup_app. split.
  - intros ((N1 & D & N2) & F). repeat split; try assumption.
    + intros x Hx. apply F. apply elem_of_app. now left.
    + intros x Hx Hx'. apply elem_of_union in Hx' as [Hx'|Hx'].
      * apply elem_of_list_to_set in Hx'. now apply (D x).
      * apply (F x); [apply elem_of_app; now right | exact Hx'].
  - intros ((N1 & F1) & (N2 & F2)). repeat split; try assumption.
    + intros x Hx Hx'. apply (F2 x Hx'). apply elem_of_union. left.
      now apply elem_of_list_to_set.
    + intros x Hx. apply elem_of_app in Hx as [Hx|Hx]; [now apply F1|].
      intros Hs. apply (F2 x Hx). apply elem_of_union. now right.
Qed.

Lemma freshIds_empty (ids : list string) : freshIds ids ∅ <-> NoDup ids.
Proof. unfold freshIds. split; [tauto|]. intros H. split; [exact H | set_solver]. Qed.

Lemma scanTaskIds_fresh (tasks : list GanttTask.t) (seen ids : gset string) :
  scanTaskIds tasks seen = Continued ids
  <-> freshIds (idsOf tasks) seen /\ ids = list_to_set (idsOf tasks) ∪ seen.
Proof. rewrite scanTaskIds_Continued. unfold freshIds. tauto. Qed.

(** The first pass runs to its end exactly when every section is valid and
    the ids of the whole schedule are pairwise distinct and new; it then
    holds all of them. *)
Lemma scanSections_Continued (sections : list GanttSection.t)
    (seen ids : gset string) :
  scanSections sections seen = Continued ids
  <-> Forall sectionValid sections
      /\ freshIds (idsOf (allTasks sections)) seen
      /\ ids = list_to_set (idsOf (allTasks sections)) ∪ seen.
Proof.
  revert seen. induction sections as [|s rest IH]; intros seen.
  - cbn [scanSections allTasks]. split.
    + intros H. injection H as <-. split; [constructor|]. split.
      * split; [constructor | intros x Hx; inversion Hx].
      * set_solver.
    + intros (_ & _ & ->). f_equal. set_solver.
  - cbn [scanSections allTasks]. rewrite idsOf_app, freshIds_app, Forall_cons.
    destruct (truthyError (validateSection s)) eqn:T.
    + split; [discriminate|]. intros ((V & _) & _).
      apply truthyError_validateSection in V. congruence.
    + apply truthyError_validateSection in T.
      destruct (scanTaskIds (GanttSection.tasks s) seen) as [e|ids1] eqn:E.
      * split; [discriminate|]. intros (_ & (F & _) & _). exfalso.
        assert (C : scanTaskIds (GanttSection.tasks s) seen
                    = Continued (list_to_set (idsOf (GanttSection.tasks s)) ∪ seen))
          by (apply scanTaskIds_fresh; auto).
        congruence.
      * apply scanTaskIds_fresh in E as (F1 & ->). rewrite IH.
        rewrite list_to_set_app_L. split.
        -- intros (V & F2 & ->). repeat split; try assumption.
           ++ apply F1. ++ apply F1. ++ apply F2. ++ apply F2. ++ set_solver.
        -- intros ((_ & V) & (_ & F2) & ->). repeat split; try assumption.
           ++ apply F2. ++ apply F2. ++ set_solver.
Qed.

(** When the first pass returns, it returns a non-empty message. *)
Lemma scanSections_Returned (sections : list GanttSection.t)
    (seen : gset string) (e : option string) :
  scanSections sections seen = Returned e ->
  exists m, e = Some m /\ falsy m = false.
Proof.
  revert seen. induction sections as [|s rest IH]; intros seen;
    cbn [scanSections]; [discriminate|].
  destruct (truthyError (validateSection s)) eqn:T.
  - intros H. injection H as <-.
    destruct (validateSection s) as [m|] eqn:V; [|discriminate].
    exists m. split; [reflexivity | now apply validateSection_truthy in V].
  - destruct (scanTaskIds (GanttSection.tasks s) seen) as [e'|ids1] eqn:E.
    + intros H. injection H as <-.
      apply scanTaskIds_Returned in E as (x & _ & ->).
      exists (msgDuplicate x). split; reflexivity.
    + apply IH.
Qed.

(** The error of the first invalid section is returned when the sections
    before it hold no duplicate. *)
Lemma scanSections_first_error (pre post : list GanttSection.t)
    (s : GanttSection.t) (seen : gset string) (e : string) :
  Forall sectionValid pre ->
  freshIds (idsOf (allTasks pre)) seen ->
  validateSection s = Some e ->
  scanSections (pre ++ s :: post) seen = Returned (Some e).
Proof.
  intros V. revert seen. induction V as [|x pre Vx _ IH]; intros seen F Hs.
  - cbn [app scanSections]. rewrite Hs.
    now rewrite (truthyError_Some e (validateSection_truthy s e Hs)).
  - cbn [app scanSections]. cbn [allTasks] in F.
    rewrite idsOf_app, freshIds_app in F. destruct F as (F1 & F2).
    apply truthyError_validateSection in Vx. rewrite Vx.
    assert (C : scanTaskIds (GanttSection.tasks x) seen
                = Continued (list_to_set (idsOf (GanttSection.tasks x)) ∪ seen))
      by (apply scanTaskIds_fresh; auto).
    rewrite C. now apply IH.
Qed.

(** A duplicate among valid sections is reported whatever comes after
    them. *)
Lemma scanSections_duplicate (pre rest : list GanttSection.t) (seen : gset string) :
  Forall sectionValid pre ->
  ~ freshIds (idsOf (allTasks pre)) seen ->
  exists x, x ∈ idsOf (allTasks pre)
            /\ scanSections (pre ++ rest) seen = Returned (Some (msgDuplicate x)).
Proof.
  intros V. revert seen. induction V as [|s pre Vs _ IH]; intros seen NF.
  - exfalso. apply NF. split; [constructor | intros x Hx; inversion Hx].
  - cbn [app scanSections allTasks]. cbn [allTasks] in NF.
    rewrite idsOf_app. rewrite idsOf_app, freshIds_app in NF.
    apply truthyError_validateSection in Vs. rewrite Vs.
    destruct (scanTaskIds (GanttSection.tasks s) seen) as [e|ids1] eqn:E.
    + apply scanTaskIds_Returned in E as (x & Hx & ->).
      exists x. split; [apply elem_of_app; now left | reflexivity].
    + apply scanTaskIds_fresh in E as (F1 & ->).
      destruct (IH (list_to_set (idsOf (GanttSection.tasks s)) ∪ seen))
        as (x & Hx & Hscan); [tauto|].
      exists x. split; [apply elem_of_app; now right | exact Hscan].
Qed.

Lemma sections_not_empty (pre post : list GanttSection.t) (s : GanttSection.t) :
  Nat.eqb (List.length (pre ++ s :: post)) 0 = false.
Proof. apply Nat.eqb_neq. rewrite length_app. simpl. lia. Qed.

(** C1, as the code has it: the duplicate-ID check of a section runs right
    after the structural checks of that section and before those of the next
    one. Let [s] be the first section that is not valid, its first failing
    task being [t] with error [e]. If the ids of the tasks of the sections
    before [s] are pairwise distinct, [validateGanttData] reports [e],
    whatever ids [s] and the later sections repeat; if two tasks of the
    sections before [s] share an id, it reports the duplicate-ID error. *)
Theorem C1_structural_error_and_duplicates
    (cfg : option GanttConfig.t) (pre post : list GanttSection.t)
    (s : GanttSection.t) (tpre tpost : list GanttTask.t) (t : GanttTask.t)
    (e : string) :
  Forall sectionValid pre ->
  blank (GanttSection.name s) = false ->
  GanttSection.tasks s = (tpre ++ t :: tpost)%list ->
  Forall (fun x => validateTask x (GanttSection.name s) = None) tpre ->
  validateTask t (GanttSection.name s) = Some e ->
  (NoDup (idsOf (allTasks pre)) ->
   validateGanttData (Some (GanttData.mk cfg (pre ++ s :: post))) = Some e)
  /\ (~ NoDup (idsOf (allTasks pre)) ->
      exists x, x ∈ idsOf (allTasks pre)
                /\ validateGanttData (Some (GanttData.mk cfg (pre ++ s :: post)))
                   = Some (msgDuplicate x)).
Proof.
  intros V Hname Htasks Htpre Ht.
  assert (Hs : validateSection s = Some e)
    by (eapply validateSection_task_error; eauto).
  unfold validateGanttData. cbn [GanttData.sections].
  rewrite sections_not_empty. split.
  - intros N. apply freshIds_empty in N.
    now rewrite (scanSections_first_error pre post s ∅ e V N Hs).
  - intros N. rewrite <- freshIds_empty in N.
    destruct (scanSections_duplicate pre (s :: post) ∅ V N) as (x & Hx & Hscan).
    exists x. split; [exact Hx|]. now rewrite Hscan.
Qed.

Lemma C1_structural_error_and_duplicates_witness :
  validateGanttData (Some structuralThenDuplicate)
  = Some (msgMissingName "task3" "Development")
  /\ exists x, x ∈ idsOf (allTasks [sectionDup])
               /\ validateGanttData (Some duplicateThenStructural)
                  = Some (msgDuplicate x).
Proof.
  split.
  - apply (C1_structural_error_and_duplicates None [sectionGood] [] sectionBad
             [] [taskOne] noName (msgMissingName "task3" "Development")).
    + repeat constructor.
    + reflexivity.
    + reflexivity.
    + constructor.
    + reflexivity.
    + apply NoDup_cons. split; [|apply NoDup_singleton].
      intros H. apply list_elem_of_singleton in H. discriminate.
  - apply (C1_structural_error_and_duplicates None [sectionDup] [] sectionBad
             [] [taskOne] noName (msgMissingName "task3" "Development")).
    + repeat constructor.
    + reflexivity.
    + reflexivity.
    + constructor.
    + reflexivity.
    + intros N. apply NoDup_cons in N as [N _]. apply N. left.
Defined.

(** C1 as it is worded fails: with a duplicate id in the first section and a
    task without a name in the second, the duplicate-ID error is reported and
    the structural error is not. *)
Lemma C1_counterexample :
  validateTask noName "Development" = Some (msgMissingName "task3" "Development")
  /\ validateSection sectionBad = Some (msgMissingName "task3" "Development")
  /\ ~ NoDup (idsOf (allTasks (GanttData.sections duplicateThenStructural)))
  /\ validateGanttData (Some duplicateThenStructural) = Some (msgDuplicate "task1")
  /\ validateGanttData (Some duplicateThenStructural)
     <> Some (msgMissingName "task3" "Development").
Proof.
  split; [reflexivity|]. split; [reflexivity|]. split.
  - intros N. apply NoDup_cons in N as [N _]. apply N. left.
  - split; [vm_compute; reflexivity|]. vm_compute. discriminate.
Qed.

(** ** The dependency pass *)

Lemma refersTo_truthy (task : GanttTask.t) :
  truthyOpt (GanttTask.after task) = true
  <-> refersTo task (default EmptyString (GanttTask.after task)).
Proof.
  unfold refersTo, truthyOpt. destruct (GanttTask.after task) as [a|]; simpl.
  - rewrite negb_true_iff, <- not_true_iff_false, falsy_spec. tauto.
  - split; [discriminate | intros [H _]; discriminate].
Qed.

Lemma refersTo_default (task : GanttTask.t) (a : string) :
  refersTo task a -> default EmptyString (GanttTask.after task) = a.
Proof. intros [-> _]. reflexivity. Qed.

Lemma checkTaskDependencies_None (tasks : list GanttTask.t) (taskIds : gset string) :
  checkTaskDependencies tasks taskIds = None
  <-> forall t a, t ∈ tasks -> refersTo t a -> a ∈ taskIds.
Proof.
  induction tasks as [|t tasks IH]; cbn [checkTaskDependencies].
  - split; [|reflexivity]. intros _ t a Ht. inversion Ht.
  - destruct (truthyOpt (GanttTask.after t)) eqn:T; cbn [andb].
    + apply refersTo_truthy in T. case_bool_decide as Hin; cbn [negb].
      * rewrite IH. split.
        -- intros H t' a Ht' Hr. apply elem_of_cons in Ht' as [->|Ht']; [|eauto].
           now rewrite <- (refersTo_default _ _ Hr).
        -- intros H t' a Ht'. apply H. now right.
      * split; [discriminate|]. intros H. exfalso. apply Hin.
        apply (H t); [left | exact T].
    + rewrite IH. split.
      * intros H t' a Ht' Hr. apply elem_of_cons in Ht' as [->|Ht']; [|eauto].
        exfalso. apply not_true_iff_false in T. apply T, refersTo_truthy.
        now rewrite (refersTo_default _ _ Hr).
      * intros H t' a Ht'. apply H. now right.
Qed.

Lemma checkTaskDependencies_Some (tasks : list GanttTask.t)
    (taskIds : gset string) (e : string) :
  checkTaskDependencies tasks taskIds = Some e ->
  exists t a, t ∈ tasks /\ refersTo t a /\ (a ∉ taskIds)
              /\ e = msgDependency (GanttTask.id t) a.
Proof.
  induction tasks as [|t tasks IH]; cbn [checkTaskDependencies]; [discriminate|].
  destruct (truthyOpt (GanttTask.after t)) eqn:T; cbn [andb].
  - case_bool_decide as Hin; cbn [negb].
    + intros H. destruct (IH H) as (t' & a & Ht' & Hr).
      exists t', a. split; [now right | exact Hr].
    + intros H. injection H as <-. apply refersTo_truthy in T.
      exists t, (default EmptyString (GanttTask.after t)).
      split; [left | auto].
  - intros H. destruct (IH H) as (t' & a & Ht' & Hr).
    exists t', a. split; [now right | exact Hr].
Qed.

Lemma checkDependencies_None (sections : list GanttSection.t)
    (taskIds : gset string) :
  checkDependencies sections taskIds = None
  <-> forall t a, t ∈ allTasks sections -> refersTo t a -> a ∈ taskIds.
Proof.
  induction sections as [|s rest IH]; cbn [checkDependencies allTasks].
  - split; [|reflexivity]. intros _ t a Ht. inversion Ht.
  - destruct (checkTaskDependencies (GanttSection.tasks s) taskIds) as [e|] eqn:E.
    + split; [discriminate|]. intros H. exfalso.
      apply checkTaskDependencies_Some in E as (t & a & Ht & Hr & Hout & _).
      apply Hout, (H t a); [apply elem_of_app; now left | exact Hr].
    + rewrite checkTaskDependencies_None in E. rewrite IH. split.
      * intros H t a Ht. apply elem_of_app in Ht as [Ht|Ht]; eauto.
      * intros H t a Ht. apply H, elem_of_app. now right.
Qed.

Lemma checkDependencies_Some (sections : list GanttSection.t)
    (taskIds : gset string) (e : string) :
  checkDependencies sections taskIds = Some e ->
  exists t a, t ∈ allTasks sections /\ refersTo t a /\ (a ∉ taskIds)
              /\ e = msgDependency (GanttTask.id t) a.
Proof.
  induction sections as [|s rest IH]; cbn [checkDependencies allTasks];
    [discriminate|].
  destruct (checkTaskDependencies (GanttSection.tasks s) taskIds) as [e'|] eqn:E.
  - intros H. injection H as <-.
    apply checkTaskDependencies_Some in E as (t & a & Ht & Hr).
    exists t, a. split; [apply elem_of_app; now left | exact Hr].
  - intros H. destruct (IH H) as (t & a & Ht & Hr).
    exists t, a. split; [apply elem_of_app; now right | exact Hr].
Qed.

(** After them the result is that of the dependency pass over the set of all
    ids. *)
Lemma validateGanttData_dependencies (cfg : option GanttConfig.t)
    (sections : list GanttSection.t) :
  earlierPassesDone sections ->
  validateGanttData (Some (GanttData.mk cfg sections))
  = checkDependencies sections (list_to_set (idsOf (allTasks sections)) ∪ ∅).
Proof.
  intros (Hne & V & N). unfold validateGanttData. cbn [GanttData.sections].
  destruct sections as [|s rest]; [congruence|]. cbn [List.length Nat.eqb].
  apply freshIds_empty in N.
  assert (C : scanSections (s :: rest) ∅
              = Continued (list_to_set (idsOf (allTasks (s :: rest))) ∪ ∅))
    by (apply scanSections_Continued; auto).
  now rewrite C.
Qed.

Lemma in_all_ids (ids : list string) (a : string) :
  a ∈ (list_to_set ids ∪ ∅ : gset string) <-> a ∈ ids.
Proof. rewrite elem_of_union, elem_of_list_to_set. set_solver. Qed.

(** C8: for a schedule that passed the earlier checks, [validateGanttData]
    fails with the "depends on non-existent task" error iff the [after] of
    some task refers to an id that no task of the schedule has, and it
    succeeds iff every reference is to the id of some task; the shape of the
    reference graph plays no part, so a schedule with a cycle of references
    and a self-reference is valid. A reference is an [after] that is set and
    not empty. *)
Theorem C8_dependency_existence_only
    (cfg : option GanttConfig.t) (sections : list GanttSection.t) :
  earlierPassesDone sections ->
  ((exists t a, t ∈ allTasks sections
                /\ validateGanttData (Some (GanttData.mk cfg sections))
                   = Some (msgDependency (GanttTask.id t) a))
   <-> exists t a, t ∈ allTasks sections /\ refersTo t a
                   /\ a ∉ idsOf (allTasks sections))
  /\ (validateGanttData (Some (GanttData.mk cfg sections)) = None
      <-> forall t a, t ∈ allTasks sections -> refersTo t a ->
                      a ∈ idsOf (allTasks sections))
  /\ validateGanttData (Some cyclicSchedule) = None.
Proof.
  intros Hpass. rewrite (validateGanttData_dependencies cfg sections Hpass).
  split; [|split].
  - split.
    + intros (t & a & _ & H).
      apply checkDependencies_Some in H as (t' & a' & Ht' & Hr & Hout & _).
      exists t', a'. rewrite in_all_ids in Hout. auto.
    + intros (t & a & Ht & Hr & Hout).
      destruct (checkDependencies sections _) as [e|] eqn:E.
      * apply checkDependencies_Some in E as (t' & a' & Ht' & _ & _ & ->).
        exists t', a'. auto.
      * exfalso. rewrite checkDependencies_None in E.
        apply Hout, in_all_ids. eauto.
  - rewrite checkDependencies_None. split.
    + intros H t a Ht Hr. apply in_all_ids. eauto.
    + intros H t a Ht Hr. apply in_all_ids. eauto.
  - vm_compute. reflexivity.
Qed.

Lemma C8_dependency_existence_only_witness :
  (exists t a, t ∈ allTasks (GanttData.sections danglingSchedule)
               /\ validateGanttData (Some danglingSchedule)
                  = Some (msgDependency (GanttTask.id t) a))
  /\ validateGanttData (Some cyclicSchedule) = None.
Proof.
  split.
  - apply (C8_dependency_existence_only None (GanttData.sections danglingSchedule)).
    + split; [discriminate|]. split; [repeat constructor|].
      apply (bool_decide_unpack _). vm_compute. exact I.
    + exists (mkTask "task1" "Task" EmptyString (days 5) None (Some "nonexistent")),
        "nonexistent".
      split; [left|]. split; [split; [reflexivity | discriminate]|].
      intros H. apply list_elem_of_singleton in H. discriminate.
  - destruct (C8_dependency_existence_only None (GanttData.sections cyclicSchedule))
      as (_ & H & _); [|apply H].
    + split; [discriminate|]. split; [repeat constructor|].
      apply (bool_decide_unpack _). vm_compute. exact I.
    + intros t a Ht [Hr _].
      repeat (apply elem_of_cons in Ht as [->|Ht];
              [injection Hr as <-; apply (bool_decide_unpack _); vm_compute; exact I|]).
      inversion Ht.
Defined.

(** ** The conversion result *)

(** Every message of [validateGanttData] is a non-empty string. *)
Lemma validateGanttData_truthy (data : option GanttData.t) (e : string) :
  validateGanttData data = Some e -> falsy e = false.
Proof.
  unfold validateGanttData. destruct data as [d|].
  - destruct (Nat.eqb _ 0).
    + intros H. injection H as <-. reflexivity.
    + destruct (scanSections (GanttData.sections d) ∅) as [m|ids] eqn:E.
      * intros ->. apply scanSections_Returned in E as (m & H & Hm).
        injection H as ->. exact Hm.
      * intros H. apply checkDependencies_Some in H as (t & a & _ & _ & _ & ->).
        reflexivity.
  - intros H. injection H as <-. reflexivity.
Qed.

Lemma validateGanttData_null_fails : validateGanttData None = Some msgDataRequired.
Proof. reflexivity. Qed.

(** The two ways a call ends. *)
Lemma convertToMermaidSyntax_cases (data : option GanttData.t) :
  (exists e, validateGanttData data = Some e
             /\ convertToMermaidSyntax data = Returns (failure e))
  \/ (exists d, data = Some d /\ validateGanttData data = None
                /\ convertToMermaidSyntax data = Returns (successWith (emittedText d))).
Proof.
  unfold convertToMermaidSyntax.
  destruct (validateGanttData data) as [e|] eqn:V.
  - left. exists e. split; [reflexivity|].
    now rewrite (truthyError_Some e (validateGanttData_truthy data e V)).
  - right. destruct data as [d|]; [|discriminate].
    exists d. repeat split.
Qed.

(** C7: [convertToMermaidSyntax] returns a result for every input; the
    result is the failure carrying exactly the validator's message and no
    text iff [validateGanttData] returns an error, and the success carrying
    the emitted text and no message iff it returns none; no result carries
    both a text and a message. *)
Theorem C7_result_follows_validation (data : option GanttData.t) :
  exists r, convertToMermaidSyntax data = Returns r
    /\ (forall e, validateGanttData data = Some e <-> r = failure e)
    /\ (validateGanttData data = None
        <-> exists d, data = Some d /\ r = successWith (emittedText d))
    /\ (ConversionResult.success r = false <-> validateGanttData data <> None)
    /\ (ConversionResult.success r = true <-> validateGanttData data = None)
    /\ ~ (is_Some (ConversionResult.syntax r) /\ is_Some (ConversionResult.error r)).
Proof.
  destruct (convertToMermaidSyntax_cases data)
    as [(e & V & C) | (d & -> & V & C)]; rewrite C, V.
  - exists (failure e). split; [reflexivity|].
    split; [intros e'; split; intros H; injection H as <-; reflexivity|].
    split; [split; [discriminate | intros (d & _ & H); discriminate]|].
    split; [split; [discriminate | reflexivity]|].
    split; [split; discriminate|].
    simpl. intros [[x Hx] _]. discriminate.
  - exists (successWith (emittedText d)). split; [reflexivity|].
    split; [intros e'; split; discriminate|].
    split; [split; [intros _; exists d; split; reflexivity | reflexivity]|].
    split; [split; [discriminate | intros H; exfalso; now apply H]|].
    split; [split; reflexivity|].
    simpl. intros [_ [x Hx]]. discriminate.
Qed.

Lemma C7_result_follows_validation_witness :
  exists r, convertToMermaidSyntax (Some scenarioA) = Returns r
    /\ (forall e, validateGanttData (Some scenarioA) = Some e <-> r = failure e)
    /\ (validateGanttData (Some scenarioA) = None
        <-> exists d, Some scenarioA = Some d /\ r = successWith (emittedText d))
    /\ (ConversionResult.success r = false <-> validateGanttData (Some scenarioA) <> None)
    /\ (ConversionResult.success r = true <-> validateGanttData (Some scenarioA) = None)
    /\ ~ (is_Some (ConversionResult.syntax r) /\ is_Some (ConversionResult.error r)).
Proof. exact (C7_result_follows_validation (Some scenarioA)). Defined.

(** C9: [convertToMermaidSyntax] is deterministic. Two calls on the same
    schedule both return, their results are equal, and when the schedule is
    valid the two emitted texts are the same sequence of characters. *)
Theorem C9_conversion_deterministic (data : option GanttData.t)
    (first second : outcome ConversionResult.t) :
  convertToMermaidSyntax data = first ->
  convertToMermaidSyntax data = second ->
  first = second
  /\ (exists r, first = Returns r /\ second = Returns r)
  /\ (validateGanttData data = None ->
      exists text, first = Returns (successWith text)
                   /\ second = Returns (successWith text)).
Proof.
  intros <- <-. split; [reflexivity|].
  destruct (convertToMermaidSyntax_cases data)
    as [(e & V & C) | (d & -> & V & C)]; rewrite C.
  - split; [eauto|]. congruence.
  - split; [eauto|]. intros _. eauto.
Qed.

Lemma C9_conversion_deterministic_witness :
  convertToMermaidSyntax (Some scenarioA) = convertToMermaidSyntax (Some scenarioA)
  /\ (exists r, convertToMermaidSyntax (Some scenarioA) = Returns r
                /\ convertToMermaidSyntax (Some scenarioA) = Returns r)
  /\ (validateGanttData (Some scenarioA) = None ->
      exists text, convertToMermaidSyntax (Some scenarioA) = Returns (successWith text)
                   /\ convertToMermaidSyntax (Some scenarioA)
                      = Returns (successWith text)).
Proof.
  apply (C9_conversion_deterministic (Some scenarioA)); reflexivity.
Defined.

(** ** The emitted lines *)

Lemma statusToString_truthy (s : TaskStatus) : falsy (statusToString s) = false.
Proof. destruct s; reflexivity. Qed.

Lemma join_truthy (sep x : string) (rest : list string) :
  falsy x = false -> falsy (join sep (x :: rest)) = false.
Proof.
  intros H. destruct rest as [|y rest]; cbn [join]; [exact H|].
  now apply falsy_app_left.
Qed.

Lemma formatTaskStatus_field (status : option (list TaskStatus)) :
  (if falsy (formatTaskStatus status) then [] else [formatTaskStatus status])
  = statusField status.
Proof.
  destruct status as [[|s l]|]; try reflexivity.
  cbn [formatTaskStatus statusField map].
  now rewrite (join_truthy ", " _ _ (statusToString_truthy s)).
Qed.

(** C5: [convertTask] yields the four-space indent followed by the fields
    joined by " : ", in the order name, status list (joined by ", ", left out
    when absent or empty), id, "after <id>" when [after] is set and the raw
    start otherwise, and the duration, formatted when structured and
    unchanged when a string; the two sample tasks give the two lines of the
    specification. *)
Theorem C5_task_line (task : GanttTask.t) :
  convertTask task = taskLine task
  /\ convertTask taskOne = "    Task One : task1 : 2024-01-01 : 5d"
  /\ convertTask taskOneDone = "    Task One : done : task1 : 2024-01-01 : 5d".
Proof.
  split; [|split; reflexivity].
  unfold convertTask, taskLine, taskFields, push.
  rewrite <- formatTaskStatus_field. f_equal. f_equal.
  assert (Hstart : (if truthyOpt (GanttTask.after task)
                    then "after " ++ default EmptyString (GanttTask.after task)
                    else GanttTask.start task) = startField task).
  { unfold startField, truthyOpt.
    destruct (GanttTask.after task) as [[|c a]|]; reflexivity. }
  assert (Hdur : forall parts,
             match GanttTask.duration task with
             | DObject d => (parts ++ [formatDuration d])%list
             | DString s => if isDurationString s then (parts ++ [s])%list
                            else (parts ++ [s])%list
             end = (parts ++ [durationField task])%list).
  { intros parts. unfold durationField.
    destruct (GanttTask.duration task) as [d|s]; [reflexivity|].
    destruct (isDurationString s); reflexivity. }
  destruct (falsy (formatTaskStatus (GanttTask.status task)));
    destruct (truthyOpt (GanttTask.after task)); rewrite Hdur, <- Hstart;
    reflexivity.
Qed.

Lemma pushIfSet_directive (keyword : string) (field : option string)
    (lines : list string) :
  pushIfSet keyword field lines = (lines ++ directiveIfSet keyword field)%list.
Proof.
  unfold pushIfSet, directiveIfSet, truthyOpt, push, directive.
  destruct field as [[|c v]|]; simpl; try reflexivity; now rewrite app_nil_r.
Qed.

Lemma convertConfig_directives (config : GanttConfig.t) :
  convertConfig config = directives config.
Proof.
  unfold convertConfig, directives. rewrite !pushIfSet_directive.
  unfold excludesDirective, push. simpl app at 1.
  destruct (GanttConfig.excludes config) as [[|x xs]|];
    rewrite <- ?app_assoc, ?app_nil_r; reflexivity.
Qed.

Lemma directiveIfSet_elem (keyword : string) (field : option string) (line : string) :
  line ∈ directiveIfSet keyword field ->
  exists v, field = Some v /\ line = directive keyword v.
Proof.
  destruct field as [[|c v]|]; simpl; intros H; try (inversion H; fail).
  apply list_elem_of_singleton in H. eauto.
Qed.

Lemma directiveIfSet_indented (keyword : string) (field : option string) :
  Forall indented (directiveIfSet keyword field).
Proof.
  destruct field as [[|c v]|]; simpl; constructor; [|constructor].
  eexists. reflexivity.
Qed.

Lemma push_tasks (tasks : list GanttTask.t) (lines : list string) :
  fold_left (fun lines task => push lines (convertTask task)) tasks lines
  = (lines ++ map convertTask tasks)%list.
Proof.
  revert lines. induction tasks as [|t ts IH]; intros lines; cbn [fold_left map].
  - now rewrite app_nil_r.
  - rewrite IH. unfold push. now rewrite <- app_assoc.
Qed.

Lemma convertSection_lines (section : GanttSection.t) :
  convertSection section
  = ("    section " ++ GanttSection.name section)
      :: map convertTask (GanttSection.tasks section).
Proof. unfold convertSection. rewrite push_tasks. reflexivity. Qed.

Lemma push_sections (sections : list GanttSection.t) (lines : list string) :
  fold_left (fun lines section => (lines ++ convertSection section)%list)
    sections lines
  = (lines ++ sectionLines sections)%list.
Proof.
  revert lines. unfold sectionLines.
  induction sections as [|s ss IH]; intros lines; cbn [fold_left map List.concat].
  - now rewrite app_nil_r.
  - rewrite IH. now rewrite <- app_assoc.
Qed.

(** C6: the directive lines of a config are those of the fields that are
    set, in the order title, dateFormat, axisFormat, tickInterval, excludes
    (its list joined by ", "); every line is the directive of a set field and
    starts with the four-space indent; enableClick, displayMode and
    excludeDates have no influence on the lines; the empty config gives no
    line; and without a config the header is followed at once by the lines
    of the sections, the first of which is the header of the first
    section. *)
Theorem C6_config_directives (config : GanttConfig.t) :
  convertConfig config = directives config
  /\ (forall line, line ∈ convertConfig config -> directiveOfSetField config line)
  /\ Forall indented (convertConfig config)
  /\ (forall excludeDates enableClick displayMode,
        convertConfig (withReserved config excludeDates enableClick displayMode)
        = convertConfig config)
  /\ convertConfig emptyConfig = []
  /\ (forall sections,
        emitLines (GanttData.mk None sections) = "gantt" :: sectionLines sections)
  /\ (forall section rest,
        emitLines (GanttData.mk None (section :: rest))
        = "gantt" :: ("    section " ++ GanttSection.name section)
            :: (map convertTask (GanttSection.tasks section) ++ sectionLines rest)%list)
  /\ (forall sections,
        emitLines (GanttData.mk (Some config) sections)
        = ("gantt" :: directives config ++ sectionLines sections)%list).
Proof.
  split; [apply convertConfig_directives|].
  split.
  { intros line. rewrite convertConfig_directives. unfold directives.
    rewrite !elem_of_app. unfold directiveOfSetField.
    intros [H|[H|[H|[H|H]]]];
      try (apply directiveIfSet_elem in H; tauto).
    right; right; right; right.
    unfold excludesDirective in H.
    destruct (GanttConfig.excludes config) as [[|x xs]|];
      try (inversion H; fail).
    apply list_elem_of_singleton in H. eauto. }
  split.
  { rewrite convertConfig_directives. unfold directives.
    rewrite !Forall_app. repeat split; try apply directiveIfSet_indented.
    unfold excludesDirective.
    destruct (GanttConfig.excludes config) as [[|x xs]|]; constructor;
      [|constructor].
    eexists. reflexivity. }
  split; [reflexivity|].
  split; [reflexivity|].
  split; [|split].
  - intros sections. unfold emitLines. cbn [GanttData.config GanttData.sections].
    now rewrite push_sections.
  - intros section rest. unfold emitLines.
    cbn [GanttData.config GanttData.sections].
    rewrite push_sections. unfold sectionLines. cbn [map List.concat].
    now rewrite convertSection_lines.
  - intros sections. unfold emitLines. cbn [GanttData.config GanttData.sections].
    now rewrite push_sections, convertConfig_directives.
Qed.


(** * Further properties of the validator *)

Lemma startCheck_spec (task : GanttTask.t) :
  falsyOpt (GanttTask.after task) && blank (GanttTask.start task) = false
  <-> (exists a, refersTo task a) \/ whitespaceOnly (GanttTask.start task) = false.
Proof.
  rewrite blank_whitespaceOnly, andb_false_iff. unfold refersTo.
  destruct (GanttTask.after task) as [[|c a]|]; simpl; split.
  - intros [H|H]; [discriminate | now right].
  - intros [(a & [E N])|H]; [injection E as <-; congruence | now right].
  - intros _. left. exists (String c a). split; [reflexivity | discriminate].
  - intros _. now left.
  - intros [H|H]; [discriminate | now right].
  - intros [(a & [E N])|H]; [discriminate | now right].
Qed.

Lemma validateDurationObject_None (id : string) (status : option (list TaskStatus))
    (d : Duration.t) :
  validateDurationObject id status d = None
  <-> ~ badValue status d /\ Duration.unit d ∈ ["d"; "w"; "h"; "m"].
Proof.
  unfold validateDurationObject.
  pose proof (badValue_spec status d) as Hbad.
  pose proof (isUnit_spec (Duration.unit d)) as Hu.
  destruct ((Duration.value d <? 0)%Z
            || negb (isMilestone status) && (Duration.value d =? 0)%Z).
  - split; [discriminate|]. intros [H _]. exfalso. apply H, Hbad. reflexivity.
  - assert (B : ~ badValue status d) by (rewrite <- Hbad; discriminate).
    destruct (isUnit (Duration.unit d)); simpl.
    + split; [|reflexivity]. intros _. split; [exact B | now apply Hu].
    + split; [discriminate|]. intros [_ H]. apply Hu in H. discriminate.
Qed.

(** [validateTask] accepts exactly the well-formed tasks. *)
Lemma validateTask_None_iff (task : GanttTask.t) (sec : string) :
  validateTask task sec = None <-> wellFormedTask task.
Proof.
  unfold wellFormedTask. rewrite <- startCheck_spec, <- !blank_whitespaceOnly.
  destruct (blank (GanttTask.id task)) eqn:Hid.
  { rewrite validateTask_blank_id by assumption.
    split; [discriminate | intros [H _]; discriminate]. }
  destruct (blank (GanttTask.name task)) eqn:Hname.
  { rewrite validateTask_blank_name by assumption.
    split; [discriminate | intros (_ & H & _); discriminate]. }
  destruct (falsyOpt (GanttTask.after task) && blank (GanttTask.start task)) eqn:Hstart.
  { rewrite validateTask_start by assumption.
    split; [discriminate | intros (_ & _ & H & _); discriminate]. }
  rewrite validateTask_duration by (repeat split; assumption).
  unfold wellFormedDuration.
  destruct (GanttTask.duration task) as [d|s].
  - rewrite validateDurationObject_None. tauto.
  - rewrite <- isDurationString_shorthandToken, <- isoDateRe_strictDate.
    destruct s as [|c s].
    + simpl. split; [discriminate|]. intros (_ & _ & _ & [H|H]); discriminate.
    + simpl falsy. cbv iota.
      destruct (isDurationString (String c s)), (test isoDateRe (String c s));
        simpl; intuition congruence.
Qed.

Lemma validateTasks_None_iff (tasks : list GanttTask.t) (sec : string) :
  validateTasks tasks sec = None <-> Forall wellFormedTask tasks.
Proof.
  induction tasks as [|t tasks IH]; cbn [validateTasks].
  - split; [constructor | reflexivity].
  - rewrite Forall_cons, <- IH, <- (validateTask_None_iff t sec).
    destruct (truthyError (validateTask t sec)) eqn:T.
    + split.
      * intros H. rewrite H in T. discriminate.
      * intros [H _]. rewrite H in T. discriminate.
    + apply truthyError_validateTask in T. tauto.
Qed.

(** [validateSection] accepts exactly the well-formed sections. *)
Lemma validateSection_None_iff (section : GanttSection.t) :
  validateSection section = None <-> wellFormedSection section.
Proof.
  unfold validateSection, wellFormedSection. rewrite <- blank_whitespaceOnly.
  destruct (blank (GanttSection.name section)).
  { split; [discriminate | intros [H _]; discriminate]. }
  destruct (GanttSection.tasks section) as [|t tasks] eqn:E.
  { simpl. split; [discriminate | intros (_ & H & _); congruence]. }
  cbn [List.length Nat.eqb]. rewrite validateTasks_None_iff.
  split; [intros H; repeat split; [discriminate | exact H] | tauto].
Qed.

(** X1: [validateTask] returns no error exactly for the tasks whose id and
    name are not blank, that have a non-empty [after] or a start that is not
    blank, and whose duration is a shorthand token or strict date (string)
    or has an acceptable value and unit (structured); the section name plays
    no part in the verdict. *)
Theorem X1_task_accepted_iff_well_formed (task : GanttTask.t) (sec : string) :
  validateTask task sec = None <-> wellFormedTask task.
Proof. apply validateTask_None_iff. Qed.

(** X2: [validateSection] returns no error exactly for the sections whose
    name is not blank, that have at least one task, and whose tasks are all
    well formed; a section without tasks and with a name gets the "has no
    tasks" error. *)
Theorem X2_section_accepted_iff_well_formed (section : GanttSection.t) :
  (validateSection section = None <-> wellFormedSection section)
  /\ (whitespaceOnly (GanttSection.name section) = false ->
      GanttSection.tasks section = [] ->
      validateSection section = Some (msgNoTasks (GanttSection.name section))).
Proof.
  split; [apply validateSection_None_iff|].
  intros Hname Htasks. unfold validateSection.
  now rewrite blank_whitespaceOnly, Hname, Htasks.
Qed.

Lemma sectionValid_well_formed (sections : list GanttSection.t) :
  Forall sectionValid sections <-> Forall wellFormedSection sections.
Proof.
  induction sections as [|s rest IH]; [split; constructor|].
  rewrite !Forall_cons, IH. unfold sectionValid.
  now rewrite validateSection_None_iff.
Qed.

Lemma validateGanttData_None_iff (cfg : option GanttConfig.t)
    (sections : list GanttSection.t) :
  validateGanttData (Some (GanttData.mk cfg sections)) = None
  <-> sections <> []
      /\ Forall wellFormedSection sections
      /\ NoDup (idsOf (allTasks sections))
      /\ referencesResolve sections.
Proof.
  rewrite <- sectionValid_well_formed. unfold referencesResolve. split.
  - unfold validateGanttData. cbn [GanttData.sections].
    destruct sections as [|s rest]; [discriminate|]. cbn [List.length Nat.eqb].
    destruct (scanSections (s :: rest) ∅) as [e|ids] eqn:E.
    + intros ->. apply scanSections_Returned in E as (m & H & _). discriminate.
    + apply scanSections_Continued in E as (V & F & ->).
      rewrite checkDependencies_None. intros H.
      split; [discriminate|]. split; [exact V|].
      split; [exact (proj1 F)|].
      intros t a Ht Hr. apply in_all_ids. eauto.
  - intros (Hne & V & N & R).
    rewrite validateGanttData_dependencies by (repeat split; assumption).
    apply checkDependencies_None. intros t a Ht Hr. apply in_all_ids. eauto.
Qed.

(** X3: [validateGanttData] returns no error exactly for the schedules that
    have at least one section, whose sections are all well formed, whose
    task ids are pairwise distinct over the whole schedule, and in which
    every reference is to the id of some task; the config plays no part, and
    [null] is rejected. *)
Theorem X3_schedule_accepted_iff (cfg : option GanttConfig.t)
    (sections : list GanttSection.t) :
  (validateGanttData (Some (GanttData.mk cfg sections)) = None
   <-> sections <> []
       /\ Forall wellFormedSection sections
       /\ NoDup (idsOf (allTasks sections))
       /\ referencesResolve sections)
  /\ validateGanttData None = Some msgDataRequired
  /\ validateGanttData (Some (GanttData.mk cfg [])) = Some msgNoSections.
Proof.
  split; [apply validateGanttData_None_iff|]. split; reflexivity.
Qed.

(** The inner loop stops at the first id that is in the set already. *)
Lemma scanTaskIds_first_repeat (tasks : list GanttTask.t) (seen : gset string)
    (pre post : list string) (x : string) :
  idsOf tasks = (pre ++ x :: post)%list ->
  freshIds pre seen ->
  x ∈ pre \/ x ∈ seen ->
  scanTaskIds tasks seen = Returned (Some (msgDuplicate x)).
Proof.
  revert tasks seen. induction pre as [|y pre IH]; intros tasks seen E F Hx.
  - destruct tasks as [|t tasks]; [discriminate|].
    rewrite idsOf_cons in E. simpl in E. injection E as Et _.
    cbn [scanTaskIds]. rewrite Et.
    destruct Hx as [Hx|Hx]; [inversion Hx|].
    now rewrite bool_decide_eq_true_2.
  - destruct tasks as [|t tasks]; [discriminate|].
    rewrite idsOf_cons in E. simpl in E. injection E as Et E.
    cbn [scanTaskIds]. rewrite Et.
    change (y :: pre) with ([y] ++ pre)%list in F.
    apply freshIds_app in F as ((_ & Fy) & F).
    rewrite bool_decide_eq_false_2 by (apply Fy; left).
    apply (IH tasks ({[y]} ∪ seen) E).
    + replace ({[y]} ∪ seen) with (list_to_set [y] ∪ seen) by set_solver.
      exact F.
    + destruct Hx as [Hx|Hx]; [|right; set_solver].
      apply elem_of_cons in Hx as [->|Hx]; [right; set_solver | now left].
Qed.

Lemma scanSections_first_repeat (sections rest : list GanttSection.t)
    (seen : gset string) (pre post : list string) (x : string) :
  Forall sectionValid sections ->
  idsOf (allTasks sections) = (pre ++ x :: post)%list ->
  freshIds pre seen ->
  x ∈ pre \/ x ∈ seen ->
  scanSections (sections ++ rest) seen = Returned (Some (msgDuplicate x)).
Proof.
  intros V. revert seen pre. induction V as [|s ss Vs _ IH]; intros seen pre E F Hx.
  - destruct pre; discriminate.
  - cbn [app scanSections]. cbn [allTasks] in E. rewrite idsOf_app in E.
    apply truthyError_validateSection in Vs. rewrite Vs.
    apply app_eq_app in E as (k & [[E1 E2]|[E1 E2]]).
    + (* the ids of [s] end inside [pre] or exactly before [x] *)
      destruct k as [|z k].
      * rewrite app_nil_r in E1. subst pre. simpl in E2.
        assert (C : scanTaskIds (GanttSection.tasks s) seen
                    = Continued (list_to_set (idsOf (GanttSection.tasks s)) ∪ seen))
          by (apply scanTaskIds_fresh; auto).
        rewrite C. symmetry in E2. apply (IH _ [] E2).
        -- split; [constructor | intros y Hy; inversion Hy].
        -- right. destruct Hx as [Hx|Hx]; set_solver.
      * simpl in E2. injection E2 as <- E2.
        rewrite (scanTaskIds_first_repeat _ seen pre k x E1 F Hx). reflexivity.
    + rewrite E1 in F. apply freshIds_app in F as (F1 & F2).
      assert (C : scanTaskIds (GanttSection.tasks s) seen
                  = Continued (list_to_set (idsOf (GanttSection.tasks s)) ∪ seen))
        by (apply scanTaskIds_fresh; auto).
      rewrite C. apply (IH _ k E2 F2).
      destruct Hx as [Hx|Hx]; [|right; set_solver].
      rewrite E1 in Hx. apply elem_of_app in Hx as [Hx|Hx]; [right; set_solver | now left].
Qed.

(** X4: when every section is well formed, the duplicate that
    [validateGanttData] reports is the first id, in scan order over the
    whole schedule, that has occurred before. *)
Theorem X4_first_repeated_id_reported (cfg : option GanttConfig.t)
    (sections : list GanttSection.t) (x : string) :
  Forall wellFormedSection sections ->
  firstRepeated (idsOf (allTasks sections)) x ->
  validateGanttData (Some (GanttData.mk cfg sections)) = Some (msgDuplicate x).
Proof.
  intros V (pre & post & E & N & Hx). apply sectionValid_well_formed in V.
  unfold validateGanttData. cbn [GanttData.sections].
  destruct sections as [|s rest]; [destruct pre; discriminate|].
  cbn [List.length Nat.eqb].
  rewrite <- (app_nil_r (s :: rest)).
  rewrite (scanSections_first_repeat (s :: rest) [] ∅ pre post x V E);
    [reflexivity | now apply freshIds_empty | now left].
Qed.

Lemma X2_section_accepted_iff_well_formed_witness :
  validateSection emptySection = Some (msgNoTasks "Planning").
Proof.
  apply (X2_section_accepted_iff_well_formed emptySection); reflexivity.
Defined.

Lemma X4_first_repeated_id_reported_witness :
  validateGanttData (Some duplicateAcrossSections) = Some (msgDuplicate "dup").
Proof.
  apply (X4_first_repeated_id_reported None
           (GanttData.sections duplicateAcrossSections) "dup").
  - apply sectionValid_well_formed. repeat constructor.
  - exists ["dup"], []. split; [reflexivity|].
    split; [apply NoDup_singleton | left].
Defined.

Lemma checkTaskDependencies_app (l1 l2 : list GanttTask.t) (taskIds : gset string) :
  checkTaskDependencies (l1 ++ l2) taskIds
  = match checkTaskDependencies l1 taskIds with
    | Some e => Some e
    | None => checkTaskDependencies l2 taskIds
    end.
Proof.
  induction l1 as [|t l1 IH]; cbn [app checkTaskDependencies]; [reflexivity|].
  destruct (truthyOpt (GanttTask.after t) && _); [reflexivity | exact IH].
Qed.

(** The two nested loops of the dependency pass are one loop over all the
    tasks. *)
Lemma checkDependencies_flat (sections : list GanttSection.t) (taskIds : gset string) :
  checkDependencies sections taskIds
  = checkTaskDependencies (allTasks sections) taskIds.
Proof.
  induction sections as [|s rest IH]; cbn [checkDependencies allTasks];
    [reflexivity|].
  rewrite checkTaskDependencies_app, IH. reflexivity.
Qed.

(** X5: for a schedule that passed the earlier checks, the dependency error
    names the first task, in scan order over the whole schedule, whose
    reference is to no id of the schedule, together with that reference. *)
Theorem X5_first_dangling_reference_reported (cfg : option GanttConfig.t)
    (sections : list GanttSection.t) (pre post : list GanttTask.t)
    (t : GanttTask.t) (a : string) :
  earlierPassesDone sections ->
  allTasks sections = (pre ++ t :: post)%list ->
  (forall t' a', t' ∈ pre -> refersTo t' a' -> a' ∈ idsOf (allTasks sections)) ->
  dangling (idsOf (allTasks sections)) t a ->
  validateGanttData (Some (GanttData.mk cfg sections))
  = Some (msgDependency (GanttTask.id t) a).
Proof.
  intros Hpass E Hpre [Hr Hout].
  rewrite (validateGanttData_dependencies cfg sections Hpass).
  rewrite checkDependencies_flat.
  pose proof (in_all_ids (idsOf (allTasks sections))) as Hin.
  set (taskIds := (list_to_set (idsOf (allTasks sections)) ∪ ∅ : gset string)) in *.
  rewrite E, checkTaskDependencies_app.
  assert (P : checkTaskDependencies pre taskIds = None).
  { apply checkTaskDependencies_None. intros t' a' Ht' Hr'. apply Hin. eauto. }
  rewrite P. cbn [checkTaskDependencies].
  assert (T : truthyOpt (GanttTask.after t) = true).
  { destruct Hr as [Ha Hne]. unfold truthyOpt. rewrite Ha. simpl.
    destruct a; [congruence | reflexivity]. }
  rewrite T, (refersTo_default t a Hr). cbn [andb].
  rewrite bool_decide_eq_false_2; [reflexivity|].
  rewrite Hin. exact Hout.
Qed.

Lemma X5_first_dangling_reference_reported_witness :
  validateGanttData (Some twoDangling) = Some (msgDependency "task2" "ghost").
Proof.
  apply (X5_first_dangling_reference_reported None (GanttData.sections twoDangling)
           [mkTask "task1" "Task 1" "2024-01-01" (days 5) None None]
           [mkTask "task3" "Task 3" EmptyString (days 5) None (Some "phantom")]
           (mkTask "task2" "Task 2" EmptyString (days 5) None (Some "ghost")) "ghost").
  - split; [discriminate|]. split; [repeat constructor|].
    apply (bool_decide_unpack _). vm_compute. exact I.
  - reflexivity.
  - intros t' a' Ht' [Hr _]. apply list_elem_of_singleton in Ht' as ->.
    discriminate Hr.
  - split; [split; [reflexivity | discriminate]|].
    intros H. apply (bool_decide_pack _) in H. vm_compute in H. exact H.
Defined.

(** X6: no validator returns the empty string as its message, so a
    truthiness test on the returned value, as the callers make it, sees
    every error. *)
Theorem X6_messages_are_not_empty (task : GanttTask.t) (sec : string)
    (section : GanttSection.t) (data : option GanttData.t) (e : string) :
  (validateTask task sec = Some e -> e <> EmptyString)
  /\ (validateSection section = Some e -> e <> EmptyString)
  /\ (validateGanttData data = Some e -> e <> EmptyString).
Proof.
  repeat split; intros H ->.
  - apply validateTask_truthy in H. discriminate.
  - apply validateSection_truthy in H. discriminate.
  - apply validateGanttData_truthy in H. discriminate.
Qed.

(** * Durations as objects and as strings *)








Lemma append_last_inj (s1 s2 : string) (c1 c2 : ascii) :
  s1 ++ String c1 EmptyString = s2 ++ String c2 EmptyString -> s1 = s2 /\ c1 = c2.
Proof.
  revert s2. induction s1 as [|a s1 IH]; intros [|b s2]; simpl; intros H.
  - injection H as ->. auto.
  - injection H as -> H. destruct s2; discriminate.
  - injection H as -> H. destruct s1; discriminate.
  - injection H as -> H. apply IH in H as [-> ->]. auto.
Qed.




Lemma earlierChecksPass_withDuration (task : GanttTask.t) (duration : DurationOrString) :
  earlierChecksPass (withDuration task duration) <-> earlierChecksPass task.
Proof. reflexivity. Qed.


(** A strict date ends with a digit, so not with a unit letter. *)
Lemma strictDate_not_unit_ended (s : string) (c : ascii) :
  unitLetter c -> ~ strictDate (s ++ String c EmptyString).
Proof.
  intros Hc (y & m & d & E & _ & _ & _ & _ & Hd & Ld).
  destruct d as [|a [|b [|? ?]]]; try discriminate Ld.
  replace (y ++ "-" ++ m ++ "-" ++ String a (String b EmptyString))
    with ((y ++ "-" ++ m ++ "-" ++ String a EmptyString) ++ String b EmptyString)
    in E by (rewrite !append_assoc; reflexivity).
  apply append_last_inj in E as [_ ->].
  destruct Hd as (_ & Hb & _). apply isDigit_digitChar in Hb.
  apply unit_oneOf in Hc.
  revert Hb Hc. clear. destruct b as [[] [] [] [] [] [] [] []]; vm_compute;
    congruence.
Qed.



(** X9: no string is both a shorthand duration token and a strict date, so
    the two patterns that the validator and the emitter try in turn never
    compete for a string. *)
Theorem X9_token_and_date_are_disjoint (s : string) :
  isDurationString s && test isoDateRe s = false.
Proof.
  apply not_true_iff_false. rewrite andb_true_iff.
  rewrite isDurationString_shorthandToken, isoDateRe_strictDate.
  intros [(ds & u & -> & _ & _ & Hu) H].
  now apply (strictDate_not_unit_ended ds u Hu) in H.
Qed.

(** * The emitted text *)

Lemma convertTask_indented (task : GanttTask.t) : indented (convertTask task).
Proof. unfold convertTask. eexists. reflexivity. Qed.

Lemma sectionLines_indented (sections : list GanttSection.t) :
  Forall indented (sectionLines sections).
Proof.
  unfold sectionLines. induction sections as [|s rest IH];
    cbn [map List.concat]; [constructor|].
  rewrite convertSection_lines, Forall_app. split; [|exact IH].
  constructor; [eexists; reflexivity|].
  induction (GanttSection.tasks s) as [|t ts IHt]; cbn [map]; constructor;
    [apply convertTask_indented | exact IHt].
Qed.

Lemma sectionLines_length (sections : list GanttSection.t) :
  List.length (sectionLines sections)
  = List.length sections + List.length (allTasks sections).
Proof.
  unfold sectionLines. induction sections as [|s rest IH];
    cbn [map List.concat allTasks List.length]; [reflexivity|].
  rewrite convertSection_lines, !length_app, IH. cbn [List.length].
  rewrite length_map. lia.
Qed.

Lemma configLines_indented (config : option GanttConfig.t) :
  Forall indented (match config with Some c => convertConfig c | None => [] end).
Proof.
  destruct config as [c|]; [|constructor].
  rewrite convertConfig_directives. unfold directives.
  rewrite !Forall_app. repeat split; try apply directiveIfSet_indented.
  unfold excludesDirective.
  destruct (GanttConfig.excludes c) as [[|x xs]|]; constructor; [|constructor].
  eexists. reflexivity.
Qed.

Lemma emitLines_shape (d : GanttData.t) :
  emitLines d
  = ("gantt" :: match GanttData.config d with
                | Some c => convertConfig c
                | None => []
                end ++ sectionLines (GanttData.sections d))%list.
Proof.
  unfold emitLines. rewrite push_sections.
  destruct (GanttData.config d); reflexivity.
Qed.

(** X10: the emitted lines are the header [gantt] followed by lines that all
    start with the four-space indent: one per emitted directive, one per
    section and one per task; so a schedule that passed validation gives at
    least three lines. *)
Theorem X10_emitted_lines (d : GanttData.t) :
  (exists rest, emitLines d = "gantt" :: rest /\ Forall indented rest)
  /\ List.length (emitLines d)
     = 1 + List.length (match GanttData.config d with
                        | Some c => convertConfig c
                        | None => []
                        end)
       + List.length (GanttData.sections d)
       + List.length (allTasks (GanttData.sections d))
  /\ (validateGanttData (Some d) = None -> 3 <= List.length (emitLines d)).
Proof.
  rewrite emitLines_shape. split; [|split].
  - eexists. split; [reflexivity|]. rewrite Forall_app.
    split; [apply configLines_indented | apply sectionLines_indented].
  - cbn [List.length]. rewrite length_app, sectionLines_length. lia.
  - destruct d as [cfg sections]. intros V.
    apply validateGanttData_None_iff in V as (Hne & W & _).
    cbn [List.length GanttData.sections GanttData.config].
    rewrite length_app, sectionLines_length.
    destruct sections as [|s rest]; [congruence|].
    apply Forall_cons in W as [(_ & Ht & _) _].
    cbn [allTasks List.length]. rewrite length_app.
    destruct (GanttSection.tasks s); [congruence|]. cbn [List.length]. lia.
Qed.

Lemma X10_emitted_lines_witness : 3 <= List.length (emitLines scenarioA).
Proof.
  apply (X10_emitted_lines scenarioA). reflexivity.
Defined.

Lemma whitespaceOnly_app (s1 s2 : string) :
  whitespaceOnly (s1 ++ s2) = whitespaceOnly s1 && whitespaceOnly s2.
Proof.
  induction s1 as [|c s1 IH]; simpl; [reflexivity|].
  rewrite IH. apply andb_assoc.
Qed.

Lemma join_cons2 (sep x y : string) (rest : list string) :
  join sep (x :: y :: rest) = x ++ sep ++ join sep (y :: rest).
Proof. reflexivity. Qed.

(** X11: the emitter does not escape the field separator. A task named
    [name ++ " : done"] without status gets the very line of the task named
    [name] with status [done], and it is valid whenever that one is: two
    different valid tasks can give the same line. *)
Theorem X11_separator_is_not_escaped (task : GanttTask.t) (name sec : string) :
  convertTask (withNameAndStatus task (name ++ " : done") None)
  = convertTask (withNameAndStatus task name (Some [done]))
  /\ (validateTask (withNameAndStatus task name (Some [done])) sec = None ->
      validateTask (withNameAndStatus task (name ++ " : done") None) sec = None).
Proof.
  split.
  - unfold convertTask, withNameAndStatus, push.
    cbn [GanttTask.name GanttTask.status GanttTask.id GanttTask.after
         GanttTask.start GanttTask.duration formatTaskStatus map join falsy app].
    f_equal.
    destruct (truthyOpt (GanttTask.after task));
      destruct (GanttTask.duration task) as [d|s];
      try destruct (isDurationString s);
      cbn [app]; rewrite !join_cons2, !append_assoc; reflexivity.
  - rewrite !validateTask_None_iff. unfold wellFormedTask, withNameAndStatus, refersTo.
    cbn [GanttTask.name GanttTask.status GanttTask.id GanttTask.after
         GanttTask.start GanttTask.duration].
    intros (H1 & _ & H3 & H4). split; [exact H1|]. split.
    + rewrite whitespaceOnly_app. apply andb_false_iff. right. reflexivity.
    + split; [exact H3|].
      destruct (GanttTask.duration task) as [d|s]; [|exact H4].
      destruct H4 as [H4 H5]. split; [|exact H5].
      intros [B|[B M]]; apply H4; [now left|]. right. split; [exact B|].
      intros (l & E & Hm). injection E as <-.
      apply list_elem_of_singleton in Hm. discriminate.
Qed.

Lemma X11_separator_is_not_escaped_witness :
  convertTask (withNameAndStatus taskOne "Task One : done" None)
  = convertTask taskOneDone
  /\ validateTask (withNameAndStatus taskOne "Task One : done" None) "Planning" = None.
Proof.
  destruct (X11_separator_is_not_escaped taskOne "Task One" "Planning") as [H1 H2].
  split; [exact H1 | apply H2; reflexivity].
Defined.

(** * The task helpers *)

Lemma refersTo_Some (id name start a : string) (duration : DurationOrString)
    (status : option (list TaskStatus)) :
  (exists x, refersTo (GanttTask.mk id name start duration status (Some a)) x)
  <-> a <> EmptyString.
Proof.
  unfold refersTo. cbn [GanttTask.after]. split.
  - intros (x & E & N). injection E as <-. exact N.
  - intros N. exists a. auto.
Qed.




(** X14: a task made by [createMilestone] is accepted exactly when the id
    and the name are not blank and the id it depends on is not the empty
    string: its zero duration passes because of its [milestone] tag. Its
    line is then "<name> : milestone : <id> : after <id> : 0d". *)
Theorem X14_createMilestone (id name afterTaskId sec : string) :
  (validateTask (createMilestone id name afterTaskId) sec = None
   <-> whitespaceOnly id = false
       /\ whitespaceOnly name = false
       /\ afterTaskId <> EmptyString)
  /\ (afterTaskId <> EmptyString ->
      convertTask (createMilestone id name afterTaskId)
      = "    " ++ name ++ " : milestone : " ++ id ++ " : after " ++ afterTaskId
        ++ " : 0d").
Proof.
  split.
  - rewrite validateTask_None_iff. unfold createMilestone, wellFormedTask.
    rewrite refersTo_Some.
    cbn [GanttTask.id GanttTask.name GanttTask.start GanttTask.after
         GanttTask.duration GanttTask.status wellFormedDuration whitespaceOnly].
    assert (Hm : hasMilestone (Some [milestone]))
      by (exists [milestone]; split; [reflexivity | left]).
    assert (Hv : ~ badValue (Some [milestone]) (Duration.mk 0 "d")).
    { intros [B|[_ B]]; [discriminate B | auto]. }
    assert (Hu : Duration.unit (Duration.mk 0 "d") ∈ ["d"; "w"; "h"; "m"]) by left.
    split.
    + intros (H1 & H2 & [H3|H3] & _); [auto | discriminate H3].
    + intros (H1 & H2 & H3). auto 6.
  - intros Ha. unfold createMilestone, convertTask, push.
    cbn [GanttTask.id GanttTask.name GanttTask.start GanttTask.after
         GanttTask.duration GanttTask.status].
    destruct afterTaskId as [|c a]; [congruence|].
    cbn [truthyOpt falsyOpt falsy negb default formatTaskStatus map join
         statusToString app].
    change (formatDuration (Duration.mk 0 "d")) with "0d".
    cbn [join]. rewrite !append_assoc. reflexivity.
Qed.


Lemma X14_createMilestone_witness :
  convertTask (createMilestone "m1" "Release" "task1")
  = "    Release : milestone : m1 : after task1 : 0d".
Proof.
  apply (X14_createMilestone "m1" "Release" "task1" "Dev"). discriminate.
Defined.

(** * The component *)

(** X15: [GanttChart] never throws. When [validateGanttData] reports an
    error it shows the alert with exactly that message and logs nothing,
    whether a click handler is given or not; otherwise it hands the emitted
    text, never [undefined], to the [Mermaid] element, and logs the one
    warning exactly when a click handler is given. *)
Theorem X15_GanttChart_view (props : GanttChartProps.t) :
  let className := default EmptyString (GanttChartProps.className props) in
  exists r, GanttChart props = Returns r
    /\ (forall e, validateGanttData (GanttChartProps.data props) = Some e ->
          r = Rendering.mk (errorView className e) [])
    /\ (validateGanttData (GanttChartProps.data props) = None ->
          exists d, GanttChartProps.data props = Some d
            /\ r = Rendering.mk (chartView className (emittedText d))
                     (if GanttChartProps.onTaskClick props
                      then [onTaskClickWarning] else [])).
Proof.
  intros className. unfold GanttChart. fold className.
  destruct (convertToMermaidSyntax_cases (GanttChartProps.data props))
    as [(e & V & C) | (d & E & V & C)]; rewrite C, V.
  - eexists. split; [reflexivity|]. split; [|discriminate].
    intros e' H. injection H as <-. reflexivity.
  - eexists. split; [reflexivity|]. split; [discriminate|].
    intros _. exists d. split; [exact E | reflexivity].
Qed.

(** * The initialization of the rendering library *)

Lemma initializeMermaid_initialized (config : option MermaidConfig.t)
    (m : MermaidModule.t) :
  MermaidModule.isInitialized m = true -> initializeMermaid config m = m.
Proof. intros H. unfold initializeMermaid. now rewrite H. Qed.

Lemma afterCalls_initialized (configs : list (option MermaidConfig.t))
    (m : MermaidModule.t) :
  MermaidModule.isInitialized m = true -> afterCalls configs m = m.
Proof.
  induction configs as [|c configs IH]; intros H; [reflexivity|].
  unfold afterCalls. cbn [fold_left].
  rewrite (initializeMermaid_initialized c m H). now apply IH.
Qed.

Lemma mergedConfig_themeCSS (config : option MermaidConfig.t) :
  exists css, MermaidConfig.themeCSS (mergedConfig config) = Some css
              /\ css <> EmptyString.
Proof.
  unfold mergedConfig. cbn [MermaidConfig.themeCSS].
  eexists. split; [reflexivity|].
  destruct config as [c|]; cbn [truthyOpt falsyOpt negb]; [|discriminate].
  destruct (MermaidConfig.themeCSS c) as [[|a css]|]; simpl; discriminate.
Qed.

(** X16: however often [initializeMermaid] is called, [mermaid.initialize]
    is called once, at the first call, with the defaults overridden by the
    config of that call; the configs of later calls are ignored. The theme
    CSS passed is never empty: an absent or empty one is replaced by the
    built-in theme. A first call without config, as the component makes it,
    passes the defaults, among them the security level "strict". *)
Theorem X16_initialized_once (first : option MermaidConfig.t)
    (later : list (option MermaidConfig.t)) :
  afterCalls (first :: later) freshModule
  = MermaidModule.mk true [mergedConfig first]
  /\ (exists css, MermaidConfig.themeCSS (mergedConfig first) = Some css
                  /\ css <> EmptyString)
  /\ mergedConfig None
     = MermaidConfig.mk (Some false) (Some "default") (Some "strict")
         (Some DRACULA_THEME_CSS) (Some "Fira Code, monospace") (Some "error").
Proof.
  split; [|split; [apply mergedConfig_themeCSS | reflexivity]].
  unfold afterCalls. cbn [fold_left].
  change (initializeMermaid first freshModule)
    with (MermaidModule.mk true [mergedConfig first]).
  now apply (afterCalls_initialized later).
Qed.

(** * The status field *)

Lemma join_status_inj (l1 l2 : list TaskStatus) :
  join ", " (map statusToString l1) = join ", " (map statusToString l2) -> l1 = l2.
Proof.
  revert l2. induction l1 as [|a l1 IH]; intros [|b l2] H.
  - reflexivity.
  - exfalso. symmetry in H. cbn [map] in H.
    pose proof (join_truthy ", " _ (map statusToString l2) (statusToString_truthy b)) as T.
    rewrite H in T. discriminate.
  - exfalso. cbn [map] in H.
    pose proof (join_truthy ", " _ (map statusToString l1) (statusToString_truthy a)) as T.
    rewrite H in T. discriminate.
  - destruct l1 as [|a' l1], l2 as [|b' l2].
    + destruct a, b; simpl in H; try discriminate; reflexivity.
    + exfalso. cbn [map] in H. rewrite join_cons2 in H.
      destruct a, b; simpl in H; discriminate.
    + exfalso. cbn [map] in H. rewrite join_cons2 in H.
      destruct a, b; simpl in H; discriminate.
    + cbn [map] in H. rewrite !join_cons2 in H.
      assert (E : a = b /\ join ", " (statusToString a' :: map statusToString l1)
                          = join ", " (statusToString b' :: map statusToString l2)).
      { destruct a, b; simpl in H; try discriminate;
          (split; [reflexivity|]); injection H as H; exact H. }
      destruct E as [-> E]. f_equal. apply IH. exact E.
Qed.

(** X17: the status field loses nothing of a status list: two lists with
    the same formatted string are the same list, tag for tag and in the
    same order; only the absent list and the empty list, both formatted as
    the empty string, are not told apart. *)
Theorem X17_formatTaskStatus_injective (l1 l2 : list TaskStatus) :
  (formatTaskStatus (Some l1) = formatTaskStatus (Some l2) <-> l1 = l2)
  /\ (formatTaskStatus (Some l1) = EmptyString <-> l1 = [])
  /\ formatTaskStatus None = formatTaskStatus (Some []).
Proof.
  assert (F : forall l, formatTaskStatus (Some l) = join ", " (map statusToString l))
    by (intros [|x l]; reflexivity).
  split; [|split; [|reflexivity]].
  - rewrite !F. split; [apply join_status_inj | intros ->; reflexivity].
  - split; [|intros ->; reflexivity].
    intros H. apply join_status_inj. rewrite <- F, H. reflexivity.
Qed.
